(** * mcp_server_abap_doc: result presentation and error projection

    A shallow embedding of the response-shaping code of the ABAP ADT tool
    server: [serializeResult], [handleError] and the request dispatcher of
    the server class, and the text-producing handlers [handleGetObjects],
    [handleGetObjectSourceCode] and [handleGetObjectPath].

    Conventions of the embedding.
    - A JavaScript string is a [string]: a sequence of code units, here the
      code units below 256.
    - A JavaScript value of type [any] is a [value]: a finite tree of plain
      data (no functions, symbols, accessors, proxies, cycles or sharing).
    - Code that can raise returns a [Res]; [try]/[catch] is [catch]. *)

From Stdlib Require Import List Bool Arith ZArith Lia Ascii String DecimalString.
From Stdlib Require DecimalNat.
Import ListNotations.
Open Scope string_scope.

(** ** Strings of the runtime *)

(** Characters that cannot be typed inside a literal. *)
Definition LF : string := String (ascii_of_nat 10) "".
Definition DQUOTE : string := String (ascii_of_nat 34) "".

(** Decimal text of an array length or index, and of a BigInt. *)
Definition nat_to_string (n : nat) : string := NilZero.string_of_uint (Nat.to_uint n).
Definition Z_to_string (z : Z) : string := NilZero.string_of_int (Z.to_int z).

Module JsString.

(** WhiteSpace and LineTerminator code units below 256:
    TAB, LF, VT, FF, CR, SP and NBSP. *)
Definition is_white_space (c : ascii) : bool :=
  let n := nat_of_ascii c in
  ((9 <=? n)%nat && (n <=? 13)%nat) || (n =? 32)%nat || (n =? 160)%nat.

Fixpoint trimStart (s : string) : string :=
  match s with
  | "" => ""
  | String c r => if is_white_space c then trimStart r else s
  end.

Fixpoint trimEnd (s : string) : string :=
  match s with
  | "" => ""
  | String c r =>
      match trimEnd r with
      | "" => if is_white_space c then "" else String c ""
      | r' => String c r'
      end
  end.

(** [s.trim()] *)
Definition trim (s : string) : string := trimEnd (trimStart s).

(** [s.startsWith(p)] *)
Definition startsWith (s p : string) : bool := prefix p s.

(** [s.includes(p)] *)
Fixpoint includes (s p : string) : bool :=
  prefix p s ||
  match s with
  | "" => false
  | String _ r => includes r p
  end.

(** [s.endsWith(p)] *)
Fixpoint endsWith (s p : string) : bool :=
  String.eqb s p ||
  match s with
  | "" => false
  | String _ r => endsWith r p
  end.

(** [l.join(sep)] on an array of strings. *)
Fixpoint join (sep : string) (l : list string) : string :=
  match l with
  | [] => ""
  | [x] => x
  | x :: r => x ++ sep ++ join sep r
  end.

(** [s.replace(/<[^>]*>?/gm, '')]: from every [<], the greedy class
    [[^>]*] runs to the next [>] or to the end of the string, and the
    optional [>] is consumed when it is there.  [in_tag] tells whether the
    scan is inside such a match. *)
Fixpoint strip_from (in_tag : bool) (s : string) : string :=
  match s with
  | "" => ""
  | String c r =>
      if in_tag then
        if Ascii.eqb c ">" then strip_from false r else strip_from true r
      else
        if Ascii.eqb c "<" then strip_from true r
        else String c (strip_from false r)
  end.

Definition strip_tags (s : string) : string := strip_from false s.

(** The characters of a string. *)
Definition chars (s : string) : list ascii := list_ascii_of_string s.

End JsString.

(** ** Values *)

(** A Number, as far as this code can tell numbers apart: it prints them and
    tests them for truth.  A finite double other than [-0] is given by the
    decimal text [Number::toString] yields for it, which determines it. *)
Inductive number : Type :=
| Finite (text : string)
| NegZero
| NaN
| Infinity (negative : bool).

Definition Number_toString (n : number) : string :=
  match n with
  | Finite t => t
  | NegZero => "0"
  | NaN => "NaN"
  | Infinity false => "Infinity"
  | Infinity true => "-Infinity"
  end.

#[local] Set Warnings "-register-all".

(** Plain JavaScript data.  The properties of an object are listed in
    enumeration order; in an object the keys are pairwise distinct. *)
Inductive value : Type :=
| VUndefined
| VNull
| VBool (b : bool)
| VNumber (n : number)
| VBigInt (z : Z)
| VString (s : string)
| VArray (elems : list value)
| VObject (props : list (string * value)).

(** What [JSON.parse] returns. A JSON number is its own text. *)
Inductive json : Type :=
| JNull
| JBool (b : bool)
| JNumber (text : string)
| JString (s : string)
| JArray (elems : list json)
| JObject (props : list (string * json)).

Section Induction.

Variable P : value -> Prop.
Hypothesis P_undefined : P VUndefined.
Hypothesis P_null : P VNull.
Hypothesis P_bool : forall b, P (VBool b).
Hypothesis P_number : forall n, P (VNumber n).
Hypothesis P_bigint : forall z, P (VBigInt z).
Hypothesis P_string : forall s, P (VString s).
Hypothesis P_array : forall l, Forall P l -> P (VArray l).
Hypothesis P_object : forall ps, Forall (fun kv => P (snd kv)) ps -> P (VObject ps).

Fixpoint value_tree_ind (v : value) : P v :=
  match v with
  | VUndefined => P_undefined
  | VNull => P_null
  | VBool b => P_bool b
  | VNumber n => P_number n
  | VBigInt z => P_bigint z
  | VString s => P_string s
  | VArray l =>
      P_array l
        ((fix all (l : list value) : Forall P l :=
            match l with
            | [] => Forall_nil P
            | x :: r => Forall_cons x (value_tree_ind x) (all r)
            end) l)
  | VObject ps =>
      P_object ps
        ((fix all (ps : list (string * value)) : Forall (fun kv => P (snd kv)) ps :=
            match ps with
            | [] => Forall_nil _
            | kv :: r => Forall_cons kv (value_tree_ind (snd kv)) (all r)
            end) ps)
  end.

End Induction.

Section JsonInduction.

Variable P : json -> Prop.
Hypothesis P_null : P JNull.
Hypothesis P_bool : forall b, P (JBool b).
Hypothesis P_number : forall t, P (JNumber t).
Hypothesis P_string : forall s, P (JString s).
Hypothesis P_array : forall l, Forall P l -> P (JArray l).
Hypothesis P_object : forall ps, Forall (fun kv => P (snd kv)) ps -> P (JObject ps).

Fixpoint json_tree_ind (j : json) : P j :=
  match j with
  | JNull => P_null
  | JBool b => P_bool b
  | JNumber t => P_number t
  | JString s => P_string s
  | JArray l =>
      P_array l
        ((fix all (l : list json) : Forall P l :=
            match l with
            | [] => Forall_nil P
            | x :: r => Forall_cons x (json_tree_ind x) (all r)
            end) l)
  | JObject ps =>
      P_object ps
        ((fix all (ps : list (string * json)) : Forall (fun kv => P (snd kv)) ps :=
            match ps with
            | [] => Forall_nil _
            | kv :: r => Forall_cons kv (json_tree_ind (snd kv)) (all r)
            end) ps)
  end.

End JsonInduction.

(** A parsed JSON text seen as a value again. *)
Fixpoint of_json (j : json) : value :=
  match j with
  | JNull => VNull
  | JBool b => VBool b
  | JNumber t => VNumber (Finite t)
  | JString s => VString s
  | JArray l => VArray (map of_json l)
  | JObject ps => VObject (map (fun kv => (fst kv, of_json (snd kv))) ps)
  end.

(** ** Abrupt completion *)

(** Errors the runtime raises, with the message text of V8. *)
Inductive exn : Type :=
| TypeError (message : string)
| SyntaxError (message : string).

Definition exn_message (e : exn) : string :=
  match e with
  | TypeError m => m
  | SyntaxError m => m
  end.

Inductive Res (A : Type) : Type :=
| Ok (a : A)
| Throw (e : exn).

Arguments Ok {A} a.
Arguments Throw {A} e.

Definition bind {A B : Type} (r : Res A) (k : A -> Res B) : Res B :=
  match r with
  | Ok a => k a
  | Throw e => Throw e
  end.

Notation "x <- r ;; k" := (bind r (fun x => k))
  (at level 61, r at next level, right associativity).

(** [try { body } catch (error) { handler }] *)
Definition catch {A : Type} (body : Res A) (handler : exn -> A) : A :=
  match body with
  | Ok a => a
  | Throw e => handler e
  end.

(** [l.map(f)] when [f] can raise: the first failure ends the loop. *)
Fixpoint mapM {A B : Type} (f : A -> Res B) (l : list A) : Res (list B) :=
  match l with
  | [] => Ok []
  | x :: r => y <- f x ;; ys <- mapM f r ;; Ok (y :: ys)
  end.

(** ** Operations of the language on values *)

(** ToBoolean *)
Definition truthy (v : value) : bool :=
  match v with
  | VUndefined | VNull => false
  | VBool b => b
  | VNumber (Finite t) => negb (String.eqb t "0")
  | VNumber NegZero | VNumber NaN => false
  | VNumber (Infinity _) => true
  | VBigInt z => negb (Z.eqb z 0)
  | VString s => negb (String.eqb s "")
  | VArray _ | VObject _ => true
  end.

(** [a || b] *)
Definition or_else (a b : value) : value := if truthy a then a else b.

Fixpoint own (ps : list (string * value)) (key : string) : option value :=
  match ps with
  | [] => None
  | (k, v) :: r => if String.eqb k key then Some v else own r key
  end.

Definition has_own (ps : list (string * value)) (key : string) : bool :=
  match own ps key with
  | Some _ => true
  | None => false
  end.

(** The element of an array at the index whose canonical text is [key]. *)
Fixpoint at_index {A : Type} (i : nat) (l : list A) (key : string) : option A :=
  match l with
  | [] => None
  | x :: r => if String.eqb (nat_to_string i) key then Some x else at_index (S i) r key
  end.

Definition cannot_read (what key : string) : exn :=
  TypeError ("Cannot read properties of " ++ what ++ " (reading '" ++ key ++ "')").

(** [v[key]] and [v.key] for a data property.  Members inherited from the
    prototypes (methods) are not data; the keys this code reads are none of
    them. *)
Definition Get (v : value) (key : string) : Res value :=
  match v with
  | VUndefined => Throw (cannot_read "undefined" key)
  | VNull => Throw (cannot_read "null" key)
  | VObject ps =>
      Ok match own ps key with Some x => x | None => VUndefined end
  | VArray l =>
      if String.eqb key "length" then Ok (VNumber (Finite (nat_to_string (List.length l))))
      else Ok match at_index 0 l key with Some x => x | None => VUndefined end
  | VString s =>
      if String.eqb key "length" then Ok (VNumber (Finite (nat_to_string (String.length s))))
      else Ok match at_index 0 (JsString.chars s) key with
              | Some c => VString (String c "")
              | None => VUndefined
              end
  | VBool _ | VNumber _ | VBigInt _ => Ok VUndefined
  end.

(** [v?.[key]] *)
Definition Get_opt (v : value) (key : string) : value :=
  match Get v key with
  | Ok x => x
  | Throw _ => VUndefined
  end.

(** ToString, as a template literal applies it.  An object that has an own
    data property [toString] has no callable [toString], and
    [Object.prototype.valueOf] returns the object itself: the conversion
    raises.  [Array.prototype.join] prints [undefined] and [null] elements
    as nothing. *)
Fixpoint ToString (v : value) : Res string :=
  match v with
  | VUndefined => Ok "undefined"
  | VNull => Ok "null"
  | VBool true => Ok "true"
  | VBool false => Ok "false"
  | VNumber n => Ok (Number_toString n)
  | VBigInt z => Ok (Z_to_string z)
  | VString s => Ok s
  | VArray l =>
      parts <- (fix each (l : list value) : Res (list string) :=
                  match l with
                  | [] => Ok []
                  | x :: r =>
                      s <- match x with
                           | VUndefined | VNull => Ok ""
                           | _ => ToString x
                           end ;;
                      ss <- each r ;;
                      Ok (s :: ss)
                  end) l ;;
      Ok (JsString.join "," parts)
  | VObject ps =>
      if has_own ps "toString"
      then Throw (TypeError "Cannot convert object to primitive value")
      else Ok "[object Object]"
  end.

(** ** JSON *)

Module JSON.

Definition hex_digit (n : nat) : ascii :=
  nth n (JsString.chars "0123456789abcdef") "0"%char.

(** UnicodeEscape of a code unit below 256. *)
Definition unicode_escape (c : ascii) : string :=
  let n := nat_of_ascii c in
  "\u00" ++ String (hex_digit (n / 16)) (String (hex_digit (n mod 16)) "").

Definition quote_char (c : ascii) : string :=
  let n := nat_of_ascii c in
  if (n =? 8)%nat then "\b"
  else if (n =? 9)%nat then "\t"
  else if (n =? 10)%nat then "\n"
  else if (n =? 12)%nat then "\f"
  else if (n =? 13)%nat then "\r"
  else if (n =? 34)%nat then "\" ++ DQUOTE
  else if (n =? 92)%nat then "\\"
  else if (n <? 32)%nat then unicode_escape c
  else String c "".

Fixpoint quote_chars (s : string) : string :=
  match s with
  | "" => ""
  | String c r => quote_char c ++ quote_chars r
  end.

(** QuoteJSONString *)
Definition quote (s : string) : string := DQUOTE ++ quote_chars s ++ DQUOTE.

Definition is_empty (s : string) : bool := String.eqb s "".

(** The text of a bracketed list of members (SerializeJSONObject and
    SerializeJSONArray, last steps). *)
Definition bracket (opening closing gap stepback indent : string)
           (partial : list string) : string :=
  if is_empty gap
  then opening ++ JsString.join "," partial ++ closing
  else opening ++ LF ++ indent
       ++ JsString.join ("," ++ LF ++ indent) partial
       ++ LF ++ stepback ++ closing.

(** SerializeJSONProperty on a parsed JSON value, with the current
    indentation. *)
Fixpoint serialize (gap indent : string) (j : json) : string :=
  match j with
  | JNull => "null"
  | JBool true => "true"
  | JBool false => "false"
  | JNumber t => t
  | JString s => quote s
  | JArray [] => "[]"
  | JArray l =>
      bracket "[" "]" gap indent (indent ++ gap)
              (map (serialize gap (indent ++ gap)) l)
  | JObject [] => "{}"
  | JObject ps =>
      bracket "{" "}" gap indent (indent ++ gap)
              (map (fun kv =>
                      quote (fst kv) ++ ":" ++ (if is_empty gap then "" else " ")
                      ++ serialize gap (indent ++ gap) (snd kv)) ps)
  end.

(** [JSON.stringify(j)] and [JSON.stringify(j, null, 2)] *)
Definition stringify (j : json) : string := serialize "" "" j.
Definition stringify_pretty (j : json) : string := serialize "  " "" j.

(** How [JSON.stringify(v, replacer)] followed by [JSON.parse] walks the
    members of an array and of an object, [f key x] being the parsed
    serialisation of the member [x] held under [key], or [None] when that
    member serialises to [undefined]: such an element of an array is
    written [null], such a property of an object is left out. *)
Section Walk.

Variable f : string -> value -> option json.

Fixpoint walk_elems (i : nat) (l : list value) : list json :=
  match l with
  | [] => []
  | x :: r =>
      match f (nat_to_string i) x with
      | Some j => j
      | None => JNull
      end :: walk_elems (S i) r
  end.

Fixpoint walk_props (ps : list (string * value)) : list (string * json) :=
  match ps with
  | [] => []
  | (k, x) :: r =>
      match f k x with
      | Some j => (k, j) :: walk_props r
      | None => walk_props r
      end
  end.

End Walk.

End JSON.

(** ** The server: [serializeResult] *)

(** [{ content: [{ type: 'text', text }], isError? }] *)
Record TextContent : Type := { type : string; text : string }.
Record ToolResult : Type := { content : list TextContent; isError : option bool }.

Definition text_result (t : string) : ToolResult :=
  {| content := [ {| type := "text"; text := t |} ]; isError := None |}.

Definition error_result (t : string) : ToolResult :=
  {| content := [ {| type := "text"; text := t |} ]; isError := Some true |}.

Definition blackList : list string :=
  ["links"; "etag"; "annex"; "changed_by"; "created_by"; "changed_at"; "parent_uri"].

(** [blackList.includes(key)] *)
Definition blackList_includes (key : string) : bool :=
  existsb (String.eqb key) blackList.

(** [JSON.parse(JSON.stringify(x, replacer))] for the member [x] held under
    [key], where [replacer] is
    [(key, value) => blackList.includes(key) ? undefined
                     : typeof value === 'bigint' ? value.toString() : value].
    The replacer sees every member with its key: a property name, or the
    decimal index of an array element.  [None] is [undefined].  A number that
    is not finite is serialised as [null], [-0] as [0]. *)
Fixpoint clean_at (key : string) (x : value) : option json :=
  if blackList_includes key then None
  else
    match x with
    | VUndefined => None
    | VNull => Some JNull
    | VBool b => Some (JBool b)
    | VNumber (Finite t) => Some (JNumber t)
    | VNumber NegZero => Some (JNumber "0")
    | VNumber NaN | VNumber (Infinity _) => Some JNull
    | VBigInt z => Some (JString (Z_to_string z))
    | VString s => Some (JString s)
    | VArray l => Some (JArray (JSON.walk_elems clean_at 0 l))
    | VObject ps => Some (JObject (JSON.walk_props clean_at ps))
    end.

(** [const clean = JSON.parse(JSON.stringify(result, replacer))]: the root is
    held under the empty key; [JSON.parse(undefined)] raises. *)
Definition clean (result : value) : Res json :=
  match clean_at "" result with
  | Some j => Ok j
  | None => Throw (SyntaxError (DQUOTE ++ "undefined" ++ DQUOTE ++ " is not valid JSON"))
  end.

(** [a || b], the right operand evaluated only when the left one is falsy. *)
Definition or_lazy (a b : Res value) : Res value :=
  x <- a ;; if truthy x then Ok x else b.

(** The callback of [clean.slice(0, 50).map(...)]. *)
Definition render_item (item : value) : Res string :=
  name <- or_lazy (Get item "name") (or_lazy (Get item "ObjectName") (Ok (VString ""))) ;;
  type <- or_lazy (Get item "type") (or_lazy (Get item "ObjectType") (Ok (VString ""))) ;;
  desc <- or_lazy (Get item "description") (Ok (VString "")) ;;
  n <- ToString name ;;
  t <- ToString type ;;
  d <- ToString desc ;;
  Ok ("- " ++ n ++ " (" ++ t ++ ") " ++ d).

(** The branch [Array.isArray(clean)]. *)
Definition render_list (clean : list json) : Res string :=
  match clean with
  | [] => Ok "Empty list"
  | _ =>
      lines <- mapM (fun item => render_item (of_json item)) (firstn 50 clean) ;;
      let finalOutput := JsString.join LF lines in
      if (50 <? List.length clean)%nat
      then Ok (finalOutput ++ LF ++ LF ++ "...and "
               ++ nat_to_string (List.length clean - 50) ++ " more objects.")
      else Ok finalOutput
  end.

(** Steps 2 and 3 of [serializeResult], on the cleaned value. *)
Definition render_clean (clean : json) : Res string :=
  match clean with
  | JArray items => render_list items
  | _ => Ok (JSON.stringify_pretty clean)
  end.

(** The branch [typeof result === 'string']. *)
Definition render_string (result : string) : string :=
  let text := JsString.trim result in
  if JsString.startsWith text "<?xml" || JsString.includes text "<adt:"
  then JsString.trim (JsString.strip_tags text)
  else text.

Definition serializeResult (result : value) : ToolResult :=
  catch
    (if negb (truthy result) then Ok (text_result "No data returned from SAP")
     else
       match result with
       | VString s => Ok (text_result (render_string s))
       | _ =>
           clean <- clean result ;;
           finalOutput <- render_clean clean ;;
           Ok (text_result finalOutput)
       end)
    (fun error => error_result ("Error: " ++ exn_message error)).

(** ** The server: [handleError] and the dispatcher *)

(** The codes of the protocol library's [ErrorCode] that this code uses. *)
Module ErrorCode.
Definition MethodNotFound : Z := (-32601)%Z.
Definition InvalidParams : Z := (-32602)%Z.
Definition InternalError : Z := (-32603)%Z.
End ErrorCode.

(** What [handleError] reads of an [McpError]. *)
Record McpError : Type := { code : Z; message : string }.

(** [new McpError(code, message)] of the protocol library, which prefixes
    the message with the code. *)
Definition new_McpError (code : Z) (message : string) : McpError :=
  {| code := code; message := "MCP error " ++ Z_to_string code ++ ": " ++ message |}.

(** A thrown value: an [McpError], another [Error], or a value that is not
    an [Error]. *)
Inductive thrown : Type :=
| ThrownMcpError (e : McpError)
| ThrownError (message : string)
| ThrownValue (v : value).

(** [handleError]; [String(error)] on a value that is not an [Error] is
    [ToString] and can raise, and nothing in [handleError] catches that. *)
Definition handleError (error : thrown) : Res ToolResult :=
  error <- match error with
           | ThrownValue v => s <- ToString v ;; Ok (ThrownError s)
           | _ => Ok error
           end ;;
  match error with
  | ThrownMcpError e =>
      Ok (error_result
            (JSON.stringify
               (JObject [("error", JString (message e));
                         ("code", JNumber (Z_to_string (code e)))])))
  | _ =>
      Ok (error_result
            (JSON.stringify
               (JObject [("error", JString "Internal server error");
                         ("code", JNumber (Z_to_string ErrorCode.InternalError))])))
  end.

(** How an awaited call ends. *)
Inductive completion (A : Type) : Type :=
| Normal (a : A)
| Abrupt (t : thrown).

Arguments Normal {A} a.
Arguments Abrupt {A} t.

(** An error of the runtime is an [Error]. *)
Definition raise {A : Type} (r : Res A) : completion A :=
  match r with
  | Ok a => Normal a
  | Throw e => Abrupt (ThrownError (exn_message e))
  end.

(** The five tool handlers, each [handle(toolName, args)]. *)
Record Handlers : Type := {
  objectHandler : string -> value -> completion value;
  classHandler : string -> value -> completion value;
  referenceHandler : string -> value -> completion value;
  generalInfoHandler : string -> value -> completion value;
  ddicHandler : string -> value -> completion value
}.

Definition one_of (name : string) (names : list string) : bool :=
  existsb (String.eqb name) names.

(** The [switch] of the request handler; [now] is
    [new Date().toISOString()]. *)
Definition dispatch (h : Handlers) (now : string) (name : string) (arguments : value)
  : completion value :=
  if one_of name ["getObjects"; "getObjectStructure"; "getObjectSourceCode";
                  "getObjectFullPath"; "getObjectVersionHistory"; "getPackageObjects"]
  then objectHandler h name arguments
  else if one_of name ["getClassComponents"; "getServiceBindingDetails"]
  then classHandler h name arguments
  else if one_of name ["getUsageReferences"; "getUsageReferenceSnippets"]
  then referenceHandler h name arguments
  else if one_of name ["getAllAnnotations"; "getAllObjectTypes"]
  then generalInfoHandler h name arguments
  else if one_of name ["getDdicElementDetails"; "getPackagesByName";
                       "getTableContent"; "runSqlQuery"]
  then ddicHandler h name arguments
  else if String.eqb name "healthcheck"
  then Normal (VObject [("status", VString "healthy"); ("timestamp", VString now)])
  else Abrupt (ThrownMcpError
                 (new_McpError ErrorCode.MethodNotFound ("Unknown tool: " ++ name))).

(** The handler of [CallToolRequestSchema]: whatever the [try] block throws
    goes to [handleError], and what [handleError] raises leaves the
    handler. *)
Definition callTool (h : Handlers) (now : string) (name : string) (arguments : value)
  : completion ToolResult :=
  match dispatch h now name arguments with
  | Normal result => Normal (serializeResult result)
  | Abrupt error => raise (handleError error)
  end.

(** ** The object handlers *)

(** [results.length === 0] and the like. *)
Definition is_zero (v : value) : bool :=
  match v with
  | VNumber (Finite t) => String.eqb t "0"
  | VNumber NegZero => true
  | _ => false
  end.

(** The callback of [results.map(...)] in [handleGetObjects]. *)
Definition handleGetObjects_item (item : value) : Res string :=
  name <- or_lazy (Get item "adtcore:name") (Get item "name") ;;
  type <- or_lazy (Get item "adtcore:type") (Get item "type") ;;
  desc <- or_lazy (Get item "adtcore:description") (Ok (VString "")) ;;
  uri <- or_lazy (Get item "adtcore:uri") (Get item "uri") ;;
  n <- ToString name ;;
  t <- ToString type ;;
  d <- ToString desc ;;
  u <- ToString uri ;;
  Ok ("- " ++ n ++ " (" ++ t ++ ") " ++ d ++ LF ++ "  URL: " ++ u).

(** [handleGetObjects] of the client-library handler, from the value
    [results] that [searchObject] resolved to. *)
Definition handleGetObjects (results : value) : completion value :=
  match
    (if negb (truthy results) then Ok (VString "No objects found.")
     else
       len <- Get results "length" ;;
       if is_zero len then Ok (VString "No objects found.")
       else
         match results with
         | VArray l =>
             lines <- mapM handleGetObjects_item l ;;
             Ok (VString (JsString.join LF lines))
         | _ => Throw (TypeError "results.map is not a function")
         end)
  with
  | Ok v => Normal v
  | Throw error =>
      Abrupt (ThrownMcpError
                (new_McpError ErrorCode.InternalError
                              ("Search failed: " ++ exn_message error)))
  end.

(** [args.objectUrl.includes('/source/main') ? args.objectUrl
     : `${args.objectUrl}/source/main`], the same in both object handlers. *)
Definition sourceUrl (objectUrl : string) : string :=
  if JsString.includes objectUrl "/source/main" then objectUrl
  else objectUrl ++ "/source/main".

(** The [||] chain that picks the root in [handleGetObjectPath]. *)
Definition root_of (data : value) : Res value :=
  or_lazy (Get data "class:abapClass")
    (or_lazy (Get data "adtcore:object")
       (or_lazy (Get data "program:abapProgram")
          (Get data "table:abapTable"))).

(** [handleGetObjectPath] of the REST handler, from the [data] of the
    response. *)
Definition handleGetObjectPath (data : value) : Res value :=
  root <- root_of data ;;
  let attrs := or_else (Get_opt root "_attributes") (VObject []) in
  package <- ToString
               (or_else
                  (Get_opt (Get_opt (Get_opt root "adtcore:packageRef") "_attributes")
                           "adtcore:name")
                  (VString "TMP")) ;;
  name <- (n <- Get attrs "adtcore:name" ;; ToString n) ;;
  Ok (VObject [("path", VString (package ++ " > " ++ name))]).

(** ** The server: the constructor's check of the environment *)

(** [['SAP_URL', 'SAP_USER', 'SAP_PASSWORD'].filter(v => !process.env[v])],
    a variable of the environment being a string or [undefined]. *)
Definition missingVars (env : string -> option string) : list string :=
  filter (fun v => match env v with
                   | Some s => String.eqb s ""
                   | None => true
                   end)
         ["SAP_URL"; "SAP_USER"; "SAP_PASSWORD"].

(** The message of the [Error] the constructor throws, [None] when it goes
    on. *)
Definition constructor_check (env : string -> option string) : option string :=
  if (0 <? List.length (missingVars env))%nat
  then Some ("Missing required environment variables: "
             ++ JsString.join ", " (missingVars env))
  else None.

(** ** Requests of the REST object handler *)

(** [query.replace(/\.\*/g, '*')], of both object handlers. *)
Fixpoint replace_dot_star (s : string) : string :=
  match s with
  | "" => ""
  | String c r =>
      if Ascii.eqb c "."
      then match r with
           | "" => String c ""
           | String d r' =>
               if Ascii.eqb d "*" then String "*" (replace_dot_star r')
               else String c (replace_dot_star r)
           end
      else String c (replace_dot_star r)
  end.

Module URI.

(** uriUnreserved: letters, digits and [-_.!~*'()]. *)
Definition is_unreserved (c : ascii) : bool :=
  let n := nat_of_ascii c in
  ((65 <=? n) && (n <=? 90))%nat || ((97 <=? n) && (n <=? 122))%nat
  || ((48 <=? n) && (n <=? 57))%nat
  || existsb (Ascii.eqb c) (JsString.chars "-_.!~*'()").

Definition HEX (n : nat) : ascii :=
  nth n (JsString.chars "0123456789ABCDEF") "0"%char.

(** One escaped octet. *)
Definition percent (octet : nat) : string :=
  String "%" (String (HEX (octet / 16)) (String (HEX (octet mod 16)) "")).

(** A code unit below 128 is one octet of UTF-8, one from 128 to 255 is
    two. *)
Definition encode_unit (c : ascii) : string :=
  let n := nat_of_ascii c in
  if is_unreserved c then String c ""
  else if (n <? 128)%nat then percent n
  else percent (192 + n / 64) ++ percent (128 + n mod 64).

(** [encodeURIComponent(s)] *)
Fixpoint encodeURIComponent (s : string) : string :=
  match s with
  | "" => ""
  | String c r => encode_unit c ++ encodeURIComponent r
  end.

End URI.

(** The [try] block of [handleGetObjects] of the REST handler, down to the
    URL it requests; [baseUrl] is what [getBaseUrl()] resolved to. *)
Definition handleGetObjects_request (baseUrl : string) (args : value)
  : completion string :=
  if negb (truthy (Get_opt args "query"))
  then Abrupt (ThrownMcpError
                 (new_McpError ErrorCode.InvalidParams "Search query is required"))
  else
    raise
      (q <- Get args "query" ;;
       query <- match q with
                | VString s => Ok (replace_dot_star s)
                | _ => Throw (TypeError "args.query.replace is not a function")
                end ;;
       m <- Get args "maxResults" ;;
       let maxResults := or_else m (VNumber (Finite "100")) in
       let encodedQuery := URI.encodeURIComponent query in
       shown_max <- ToString maxResults ;;
       Ok (baseUrl
           ++ "/sap/bc/adt/repository/informationsystem/search?operation=quickSearch&query="
           ++ encodedQuery ++ "&maxResults=" ++ shown_max)).

(** ** The client-library object handler *)

(** How the part of a [try] block that awaits the client ends: with a value,
    or with what the [catch] clause catches. *)
Inductive tried (A : Type) : Type :=
| Done (a : A)
| Failed (error : thrown).

Arguments Done {A} a.
Arguments Failed {A} error.

Definition and_then {A B : Type} (t : tried A) (k : A -> tried B) : tried B :=
  match t with
  | Done a => k a
  | Failed m => Failed m
  end.

Definition attempt {A : Type} (r : Res A) : tried A :=
  match r with
  | Ok a => Done a
  | Throw e => Failed (ThrownError (exn_message e))
  end.

(** [error.message] as the template of a [catch] clause prints it: on a value
    that is not an [Error] the property is read, which raises for [null] and
    [undefined], and converted to a string. *)
Definition message_of (error : thrown) : Res string :=
  match error with
  | ThrownMcpError e => Ok (message e)
  | ThrownError m => Ok m
  | ThrownValue v => m <- Get v "message" ;; ToString m
  end.

(** The calls of the ADT client library that the handler awaits, with the
    way each one ends in this invocation. *)
Record ADTClient : Type := {
  login : tried value;
  searchObject : string -> tried value;
  objectStructure : value -> tried value;
  getObjectSource : value -> tried value;
  findObjectPath : value -> tried value;
  revisions : value -> tried value;
  nodeContents : string -> value -> tried value
}.

Module ObjectHandler__.

(** The shape all six handlers share:
    [try { request; this.trackRequest(startTime, true); post }
     catch (error) { this.trackRequest(startTime, false);
                     throw new McpError(ErrorCode.InternalError, prefix + error.message) }].
    The first component lists the outcomes given to [trackRequest], in
    order.  What the template raises while it prints [error.message] leaves
    the handler in place of the [McpError]. *)
Definition tracked (prefix : string) (request : tried value)
           (post : value -> Res value) : list bool * completion value :=
  match request with
  | Failed error =>
      ([false],
       match message_of error with
       | Ok m =>
           Abrupt (ThrownMcpError (new_McpError ErrorCode.InternalError (prefix ++ m)))
       | Throw e => Abrupt (ThrownError (exn_message e))
       end)
  | Done x =>
      match post x with
      | Ok v => ([true], Normal v)
      | Throw e =>
          ([true; false],
           Abrupt (ThrownMcpError
                     (new_McpError ErrorCode.InternalError (prefix ++ exn_message e))))
      end
  end.

(** [args.query.replace(/\.\*/g, '*')] *)
Definition query_of (args : value) : Res string :=
  q <- Get args "query" ;;
  match q with
  | VString s => Ok (replace_dot_star s)
  | VUndefined => Throw (cannot_read "undefined" "replace")
  | VNull => Throw (cannot_read "null" "replace")
  | _ => Throw (TypeError "args.query.replace is not a function")
  end.

(** What [handleGetObjects] does with [results]. *)
Definition search_post (results : value) : Res value :=
  if negb (truthy results) then Ok (VString "No objects found.")
  else
    len <- Get results "length" ;;
    if is_zero len then Ok (VString "No objects found.")
    else
      match results with
      | VArray l =>
          lines <- mapM handleGetObjects_item l ;;
          Ok (VString (JsString.join LF lines))
      | _ => Throw (TypeError "results.map is not a function")
      end.

Definition handleGetObjects (c : ADTClient) (args : value)
  : list bool * completion value :=
  tracked "Search failed: "
          (and_then (login c) (fun _ =>
           and_then (attempt (query_of args)) (searchObject c)))
          search_post.

Definition handleObjectStructure (c : ADTClient) (args : value)
  : list bool * completion value :=
  tracked "Failed to get structure: "
          (and_then (login c) (fun _ =>
           and_then (attempt (Get args "objectUrl")) (objectStructure c)))
          (fun structure => Ok structure).

(** [args.objectUrl.includes('/source/main') ? args.objectUrl
     : `${args.objectUrl}/source/main`]; an array has an [includes] too. *)
Definition url_of (args : value) : Res value :=
  o <- Get args "objectUrl" ;;
  match o with
  | VString s => Ok (VString (sourceUrl s))
  | VArray l =>
      if existsb (fun x => match x with
                           | VString s => String.eqb s "/source/main"
                           | _ => false
                           end) l
      then Ok o
      else s <- ToString o ;; Ok (VString (s ++ "/source/main"))
  | VUndefined => Throw (cannot_read "undefined" "includes")
  | VNull => Throw (cannot_read "null" "includes")
  | _ => Throw (TypeError "args.objectUrl.includes is not a function")
  end.

Definition handleGetObjectSourceCode (c : ADTClient) (args : value)
  : list bool * completion value :=
  tracked "Failed to get source: "
          (and_then (login c) (fun _ =>
           and_then (attempt (url_of args)) (getObjectSource c)))
          (fun source => Ok source).

(** [`${p['adtcore:name']} (${p['adtcore:type']})`] *)
Definition path_segment (p : value) : Res string :=
  n <- Get p "adtcore:name" ;;
  shown_n <- ToString n ;;
  t <- Get p "adtcore:type" ;;
  shown_t <- ToString t ;;
  Ok (shown_n ++ " (" ++ shown_t ++ ")").

Definition path_post (path : value) : Res value :=
  if negb (truthy path) then Ok (VString "Path not found")
  else
    len <- Get path "length" ;;
    if is_zero len then Ok (VString "Path not found")
    else
      match path with
      | VArray l =>
          segments <- mapM path_segment l ;;
          Ok (VString (JsString.join " > " segments))
      | _ => Throw (TypeError "path.map is not a function")
      end.

Definition handleGetObjectPath (c : ADTClient) (args : value)
  : list bool * completion value :=
  tracked "Failed to find path: "
          (and_then (login c) (fun _ =>
           and_then (attempt (Get args "objectUrl")) (findObjectPath c)))
          path_post.

(** [`Version: ${rev.version} | Author: ${rev.author} | Date: ${rev.date}\n  URL: ${rev.uri}`] *)
Definition revision_entry (rev : value) : Res string :=
  v <- Get rev "version" ;;
  shown_v <- ToString v ;;
  a <- Get rev "author" ;;
  shown_a <- ToString a ;;
  d <- Get rev "date" ;;
  shown_d <- ToString d ;;
  u <- Get rev "uri" ;;
  shown_u <- ToString u ;;
  Ok ("Version: " ++ shown_v ++ " | Author: " ++ shown_a ++ " | Date: " ++ shown_d
      ++ LF ++ "  URL: " ++ shown_u).

Definition revisions_post (revisions : value) : Res value :=
  if negb (truthy revisions) then Ok (VString "No version history found.")
  else
    len <- Get revisions "length" ;;
    if is_zero len then Ok (VString "No version history found.")
    else
      match revisions with
      | VArray l =>
          entries <- mapM revision_entry l ;;
          Ok (VString (JsString.join (LF ++ "---" ++ LF) entries))
      | _ => Throw (TypeError "revisions.map is not a function")
      end.

Definition handleObjectVersionHistory (c : ADTClient) (args : value)
  : list bool * completion value :=
  tracked "Failed to get versions: "
          (and_then (login c) (fun _ =>
           and_then (attempt (Get args "objectUrl")) (revisions c)))
          revisions_post.

(** The callback of [nodeContents.nodes.map(...)]. *)
Definition package_line (node : value) : Res string :=
  name <- or_lazy (Get node "name") (Ok (VString "Unknown")) ;;
  type <- or_lazy (Get node "type") (Ok (VString "Unknown type")) ;;
  desc <- or_lazy (Get node "description") (Ok (VString "")) ;;
  n <- ToString name ;;
  t <- ToString type ;;
  d <- ToString desc ;;
  Ok ("- " ++ n ++ " (" ++ t ++ ") " ++ d).

Definition package_post (nodeContents : value) : Res value :=
  if negb (truthy nodeContents) then Ok (VString "Package is empty.")
  else
    nodes <- Get nodeContents "nodes" ;;
    len <- Get nodes "length" ;;
    if is_zero len then Ok (VString "Package is empty.")
    else
      match nodes with
      | VArray l =>
          lines <- mapM package_line l ;;
          Ok (VString (JsString.join LF lines))
      | _ => Throw (TypeError "nodeContents.nodes.map is not a function")
      end.

Definition handlePackageObjects (c : ADTClient) (args : value)
  : list bool * completion value :=
  tracked "Failed to get package objects: "
          (and_then (login c) (fun _ =>
           and_then (attempt (Get args "package_name")) (nodeContents c "DEVC/K")))
          package_post.

(** [handle(toolName, args)] *)
Definition handle (c : ADTClient) (toolName : string) (args : value)
  : list bool * completion value :=
  if String.eqb toolName "getObjects" then handleGetObjects c args
  else if String.eqb toolName "getObjectStructure" then handleObjectStructure c args
  else if String.eqb toolName "getObjectSourceCode" then handleGetObjectSourceCode c args
  else if String.eqb toolName "getObjectFullPath" then handleGetObjectPath c args
  else if String.eqb toolName "getObjectVersionHistory"
  then handleObjectVersionHistory c args
  else if String.eqb toolName "getPackageObjects" then handlePackageObjects c args
  else ([], Abrupt (ThrownMcpError
                      (new_McpError ErrorCode.MethodNotFound
                                    ("Unknown object tool: " ++ toolName)))).

End ObjectHandler__.

(** * Vocabulary of the properties *)

(** Every field name that occurs in a JSON value, at any depth. *)
Fixpoint keys_of (j : json) : list string :=
  match j with
  | JArray l => flat_map keys_of l
  | JObject ps => flat_map (fun kv => fst kv :: keys_of (snd kv)) ps
  | _ => []
  end.

(** No field name of [j], at any depth, is in the block-list. *)
Definition redacted (j : json) : Prop :=
  forall k, In k (keys_of j) -> blackList_includes k = false.

(** [redaction] as an operation on values: one pass of
    [JSON.parse(JSON.stringify(v, replacer))]. *)
Definition redact (v : value) : value :=
  match clean_at "" v with
  | Some j => of_json j
  | None => VUndefined
  end.

(** What [clean_at] keeps of [x] is redacted, under whatever key. *)
Definition clean_sound (x : value) : Prop :=
  forall key j, clean_at key x = Some j -> redacted j.

(** A redacted [j] goes through [clean_at] unchanged. *)
Definition clean_fixed (j : json) : Prop :=
  redacted j -> forall key, blackList_includes key = false ->
  clean_at key (of_json j) = Some j.

(** What [serializeResult] returns once it holds the cleaned value. *)
Definition present (clean : json) : ToolResult :=
  catch (finalOutput <- render_clean clean ;; Ok (text_result finalOutput))
        (fun error => error_result ("Error: " ++ exn_message error)).

(** The value of the first of the field names [aliases] that holds a truthy
    value in [item], the empty string when none does. *)
Fixpoint field_or_empty (item : value) (aliases : list string) : value :=
  match aliases with
  | [] => VString ""
  | a :: r => if truthy (Get_opt item a) then Get_opt item a else field_or_empty item r
  end.

(** [line] is the item line [- {name} ({type}) {description}] of [item]. *)
Definition item_line (item : value) (line : string) : Prop :=
  exists n t d,
    ToString (field_or_empty item ["name"; "ObjectName"]) = Ok n /\
    ToString (field_or_empty item ["type"; "ObjectType"]) = Ok t /\
    ToString (field_or_empty item ["description"]) = Ok d /\
    line = "- " ++ n ++ " (" ++ t ++ ") " ++ d.

(** The first 50 entries of a sequence, as [serializeResult] renders them. *)
Definition shown (l : list value) : list value :=
  map of_json (firstn 50 (JSON.walk_elems clean_at 0 l)).

(** The summary line for [n] entries that are not shown. *)
Definition summary_line (n : nat) : string :=
  "...and " ++ nat_to_string n ++ " more objects.".

(** The candidate root keys, in the order [handleGetObjectPath] probes. *)
Definition root_candidates : list string :=
  ["class:abapClass"; "adtcore:object"; "program:abapProgram"; "table:abapTable"].

(** The value a mapping holds under [key], [undefined] when it has none. *)
Definition field (ps : list (string * value)) (key : string) : value :=
  match own ps key with
  | Some x => x
  | None => VUndefined
  end.

(** The root as the specification words it: the value under the first
    candidate key that is present. *)
Definition first_present_root (ps : list (string * value)) : value :=
  match find (has_own ps) root_candidates with
  | Some k => field ps k
  | None => VUndefined
  end.

(** The root under the first candidate key that holds a truthy value; when
    none does, what the last candidate holds. *)
Definition first_truthy_root (ps : list (string * value)) : value :=
  match find (fun k => truthy (field ps k)) root_candidates with
  | Some k => field ps k
  | None => field ps "table:abapTable"
  end.

(** [t] has a tag span [<...>]. *)
Definition has_tag_span (t : string) : Prop :=
  exists a b c, t = a ++ "<" ++ b ++ ">" ++ c.

(** The single search hit of the scenario. *)
Definition single_hit : value :=
  VArray [VObject [("adtcore:name", VString "ZCL_FOO");
                   ("adtcore:type", VString "CLAS/OC");
                   ("adtcore:uri", VString "/sap/bc/adt/oo/classes/zcl_foo")]].

(** A sequence of 64 mappings [{name, type}]. *)
Definition sixty_four : list value :=
  repeat (VObject [("name", VString "ZCL_FOO"); ("type", VString "CLAS/OC")]) 64.

(** The text of a generic error. *)
Definition internal_error_text : string :=
  "{" ++ DQUOTE ++ "error" ++ DQUOTE ++ ":" ++ DQUOTE ++ "Internal server error" ++ DQUOTE
  ++ "," ++ DQUOTE ++ "code" ++ DQUOTE ++ ":-32603}".

(** A sequence of 51 [null] entries. *)
Definition fifty_one_nulls : list value := repeat VNull 51.

(** A response whose class root is present but empty, next to an object
    root. *)
Definition empty_class_root : list (string * value) :=
  [("class:abapClass", VString "");
   ("adtcore:object",
    VObject [("_attributes", VObject [("adtcore:name", VString "ZOBJ")])])].

(** A response whose table root has no [adtcore:name] attribute. *)
Definition nameless_table : value :=
  VObject [("table:abapTable", VObject [("_attributes", VObject [])])].

(** The text the scenario of the search transformer expects to find. *)
Definition expected_hit_text : string :=
  "- ZCL_FOO (CLAS/OC)  URL: /sap/bc/adt/oo/classes/zcl_foo".

(** The text [handleGetObjects] returns for [single_hit]. *)
Definition single_hit_text : string :=
  "- ZCL_FOO (CLAS/OC) " ++ LF ++ "  URL: /sap/bc/adt/oo/classes/zcl_foo".

(** A structure with block-listed fields at two depths and a BigInt. *)
Definition class_structure : value :=
  VObject [("name", VString "ZCL_FOO");
           ("links", VArray [VObject [("href", VString "./source/main")]]);
           ("components",
            VArray [VObject [("name", VString "RUN"); ("etag", VString "2024");
                             ("size", VBigInt 12)]])].

(** [s] consists of white space only. *)
Definition blank (s : string) : bool :=
  forallb JsString.is_white_space (JsString.chars s).

(** The names the [switch] of the request handler knows. *)
Definition tool_names : list string :=
  ["getObjects"; "getObjectStructure"; "getObjectSourceCode"; "getObjectFullPath";
   "getObjectVersionHistory"; "getPackageObjects";
   "getClassComponents"; "getServiceBindingDetails";
   "getUsageReferences"; "getUsageReferenceSnippets";
   "getAllAnnotations"; "getAllObjectTypes";
   "getDdicElementDetails"; "getPackagesByName"; "getTableContent"; "runSqlQuery";
   "healthcheck"].

(** The names [ObjectHandler__.handle] knows. *)
Definition object_tool_names : list string :=
  ["getObjects"; "getObjectStructure"; "getObjectSourceCode"; "getObjectFullPath";
   "getObjectVersionHistory"; "getPackageObjects"].

(** The four tools of [ObjectHandler__] that format a listing. *)
Definition listing_tool_names : list string :=
  ["getObjects"; "getObjectFullPath"; "getObjectVersionHistory"; "getPackageObjects"].

(** The text of the error result for an [McpError] of the given message and
    code. *)
Definition mcp_error_text (message : string) (code : Z) : string :=
  "{" ++ DQUOTE ++ "error" ++ DQUOTE ++ ":" ++ JSON.quote message ++ ","
      ++ DQUOTE ++ "code" ++ DQUOTE ++ ":" ++ Z_to_string code ++ "}".

(** Handlers that answer nothing. *)
Definition idle_handlers : Handlers :=
  {| objectHandler := fun _ _ => Normal VUndefined;
     classHandler := fun _ _ => Normal VUndefined;
     referenceHandler := fun _ _ => Normal VUndefined;
     generalInfoHandler := fun _ _ => Normal VUndefined;
     ddicHandler := fun _ _ => Normal VUndefined |}.

(** A value that has the shape of a tool result already,
    [{ content: [{ type: 'text', text }] }]. *)
Definition tool_result_value (t : string) : value :=
  VObject [("content", VArray [VObject [("type", VString "text"); ("text", VString t)]])].

(** The variables the constructor requires. *)
Definition required_vars : list string := ["SAP_URL"; "SAP_USER"; "SAP_PASSWORD"].

(** [v] is set, and not to the empty string. *)
Definition is_set (env : string -> option string) (v : string) : Prop :=
  exists s, env v = Some s /\ s <> "".

(** Characters that would end or split a query parameter. *)
Definition delimiters : list ascii := JsString.chars "&=?#/+ ".

(** A client whose calls all resolve to the given value. *)
Definition constant_client (answer : value) : ADTClient :=
  {| login := Done VUndefined;
     searchObject := fun _ => Done answer;
     objectStructure := fun _ => Done answer;
     getObjectSource := fun _ => Done answer;
     findObjectPath := fun _ => Done answer;
     revisions := fun _ => Done answer;
     nodeContents := fun _ _ => Done answer |}.

(** The fields of an entry that the list rendering reads. *)
Definition rendered_fields : list string :=
  ["name"; "ObjectName"; "type"; "ObjectType"; "description"].

(** Two entries hold the same under every rendered field. *)
Definition same_rendered_fields (a b : value) : Prop :=
  forall k, In k rendered_fields -> Get a k = Get b k.

(** An object whose own [toString] is not a function: no conversion to a
    string succeeds on it. *)
Definition unprintable : value := VObject [("toString", VString "x")].

(** Handlers that all throw the given value. *)
Definition throwing_handlers (t : thrown) : Handlers :=
  {| objectHandler := fun _ _ => Abrupt t;
     classHandler := fun _ _ => Abrupt t;
     referenceHandler := fun _ _ => Abrupt t;
     generalInfoHandler := fun _ _ => Abrupt t;
     ddicHandler := fun _ _ => Abrupt t |}.

(** A client that logs in and rejects every other call with the given
    value. *)
Definition rejecting_client (t : thrown) : ADTClient :=
  {| login := Done VUndefined;
     searchObject := fun _ => Failed t;
     objectStructure := fun _ => Failed t;
     getObjectSource := fun _ => Failed t;
     findObjectPath := fun _ => Failed t;
     revisions := fun _ => Failed t;
     nodeContents := fun _ _ => Failed t |}.

(** The call resolved, or what it rejected with has a message that can be
    read and printed, as every [Error] has. *)
Definition settles (r : tried value) : Prop :=
  match r with
  | Done _ => True
  | Failed error => exists m, message_of error = Ok m
  end.

(** Every call of the client settles. *)
Definition client_settles (c : ADTClient) : Prop :=
  settles (login c) /\
  (forall q, settles (searchObject c q)) /\
  (forall u, settles (objectStructure c u)) /\
  (forall u, settles (getObjectSource c u)) /\
  (forall u, settles (findObjectPath c u)) /\
  (forall u, settles (revisions c u)) /\
  (forall t n, settles (nodeContents c t n)).

(** [!process.env[v]] *)
Definition unset (env : string -> option string) (v : string) : bool :=
  match env v with
  | Some s => String.eqb s ""
  | None => true
  end.

(** An environment in which only [SAP_USER] is set. *)
Definition user_only (v : string) : option string :=
  if String.eqb v "SAP_USER" then Some "DEVELOPER" else None.

(** A client whose login is rejected with the given value. *)
Definition locked_client (t : thrown) : ADTClient :=
  {| login := Failed t;
     searchObject := fun _ => Done VUndefined;
     objectStructure := fun _ => Done VUndefined;
     getObjectSource := fun _ => Done VUndefined;
     findObjectPath := fun _ => Done VUndefined;
     revisions := fun _ => Done VUndefined;
     nodeContents := fun _ _ => Done VUndefined |}.

(** * Properties *)

(** ** Redaction *)

Lemma blackList_includes_In (k : string) :
  blackList_includes k = true <-> In k blackList.
Proof.
  unfold blackList_includes. rewrite existsb_exists. split.
  - intros [x [Hx He]]. apply String.eqb_eq in He. now subst.
  - intros H. exists k. split; [assumption | apply String.eqb_refl].
Qed.

(** The key of an array element is a decimal index, never a listed name. *)
Lemma index_key_allowed (i : nat) : blackList_includes (nat_to_string i) = false.
Proof.
  unfold nat_to_string. destruct (Nat.to_uint i); reflexivity.
Qed.

Lemma root_key_allowed : blackList_includes "" = false.
Proof. reflexivity. Qed.

Lemma clean_at_key_allowed (key : string) (x : value) (j : json) :
  clean_at key x = Some j -> blackList_includes key = false.
Proof.
  destruct x; simpl; destruct (blackList_includes key); congruence.
Qed.

Lemma redacted_array (l : list json) :
  Forall redacted l -> redacted (JArray l).
Proof.
  intros H k Hk. simpl in Hk. apply in_flat_map in Hk.
  destruct Hk as [x [Hx Hin]]. rewrite Forall_forall in H. exact (H x Hx k Hin).
Qed.

Lemma redacted_object (ps : list (string * json)) :
  Forall (fun kv => blackList_includes (fst kv) = false /\ redacted (snd kv)) ps ->
  redacted (JObject ps).
Proof.
  intros H k Hk. simpl in Hk. apply in_flat_map in Hk.
  destruct Hk as [[k' x] [Hx Hin]]. rewrite Forall_forall in H.
  destruct (H _ Hx) as [Hk' Hr]. simpl in *.
  destruct Hin as [-> | Hin]; [assumption | exact (Hr k Hin)].
Qed.

Lemma redacted_array_inv (l : list json) :
  redacted (JArray l) -> Forall redacted l.
Proof.
  intros H. apply Forall_forall. intros x Hx k Hk.
  apply H. simpl. apply in_flat_map. now exists x.
Qed.

Lemma redacted_object_inv (ps : list (string * json)) :
  redacted (JObject ps) ->
  Forall (fun kv => blackList_includes (fst kv) = false /\ redacted (snd kv)) ps.
Proof.
  intros H. apply Forall_forall. intros [k x] Hx. simpl. split.
  - apply H. simpl. apply in_flat_map. exists (k, x). split; [assumption | now left].
  - intros k' Hk'. apply H. simpl. apply in_flat_map.
    exists (k, x). split; [assumption | now right].
Qed.

Lemma walk_elems_redacted (l : list value) :
  Forall clean_sound l -> forall i, Forall redacted (JSON.walk_elems clean_at i l).
Proof.
  induction 1 as [| x r Hx _ IH]; intros i; simpl; constructor.
  - destruct (clean_at (nat_to_string i) x) eqn:E.
    + exact (Hx _ _ E).
    + intros k [].
  - apply IH.
Qed.

Lemma walk_props_redacted (ps : list (string * value)) :
  Forall (fun kv => clean_sound (snd kv)) ps ->
  Forall (fun kv => blackList_includes (fst kv) = false /\ redacted (snd kv))
         (JSON.walk_props clean_at ps).
Proof.
  induction 1 as [| [k x] r Hx _ IH]; simpl; [constructor |].
  destruct (clean_at k x) eqn:E; [| exact IH].
  constructor; [| exact IH]. simpl. split.
  - exact (clean_at_key_allowed _ _ _ E).
  - exact (Hx _ _ E).
Qed.

(** Whatever [clean_at] keeps carries no listed field name. *)
Lemma clean_at_redacted (x : value) : clean_sound x.
Proof.
  unfold clean_sound.
  induction x as [| | b | n | z | s | l IH | ps IH] using value_tree_ind;
    intros key j; simpl; destruct (blackList_includes key); try discriminate;
    try (intros [= <-]; intros k []).
  - destruct n as [t | | | neg]; intros [= <-]; intros k [].
  - intros [= <-]. apply redacted_array. now apply walk_elems_redacted.
  - intros [= <-]. apply redacted_object. now apply walk_props_redacted.
Qed.

Lemma walk_elems_fixed (l : list json) :
  Forall clean_fixed l -> Forall redacted l ->
  forall i, JSON.walk_elems clean_at i (map of_json l) = l.
Proof.
  induction 1 as [| x r Hx _ IH]; intros Hr i; simpl; [reflexivity |].
  inversion Hr as [| ? ? Hrx Hrr]; subst.
  rewrite (Hx Hrx _ (index_key_allowed i)). f_equal. now apply IH.
Qed.

Lemma walk_props_fixed (ps : list (string * json)) :
  Forall (fun kv => clean_fixed (snd kv)) ps ->
  Forall (fun kv => blackList_includes (fst kv) = false /\ redacted (snd kv)) ps ->
  JSON.walk_props clean_at (map (fun kv => (fst kv, of_json (snd kv))) ps) = ps.
Proof.
  induction 1 as [| [k x] r Hx _ IH]; intros Hr; simpl; [reflexivity |].
  inversion Hr as [| ? ? [Hk Hrx] Hrr]; subst. simpl in *.
  rewrite (Hx Hrx _ Hk). f_equal. now apply IH.
Qed.

(** A redacted JSON value is a clean_fixed point of the cleaning pass. *)
Lemma clean_at_fixed (j : json) : clean_fixed j.
Proof.
  unfold clean_fixed.
  induction j as [| b | t | s | l IH | ps IH] using json_tree_ind;
    intros Hr key Hkey; simpl; rewrite Hkey; try reflexivity.
  - do 2 f_equal. apply walk_elems_fixed; [assumption |].
    now apply redacted_array_inv.
  - do 2 f_equal. apply walk_props_fixed; [assumption |].
    now apply redacted_object_inv.
Qed.

(** A mapping or a sequence is always serialised to something. *)
Lemma clean_array (l : list value) :
  clean (VArray l) = Ok (JArray (JSON.walk_elems clean_at 0 l)).
Proof. reflexivity. Qed.

Lemma clean_object (ps : list (string * value)) :
  clean (VObject ps) = Ok (JObject (JSON.walk_props clean_at ps)).
Proof. reflexivity. Qed.

Lemma walk_elems_length (f : string -> value -> option json) (l : list value) :
  forall i, List.length (JSON.walk_elems f i l) = List.length l.
Proof.
  induction l as [| x r IH]; intros i; simpl; [reflexivity | now rewrite IH].
Qed.

(** C1. For a sequence and for a mapping given to [serializeResult], the
    cleaned value exists, no field name of the block-list occurs in it at any
    depth, and the result is rendered from that cleaned value alone. *)
Theorem serializeResult_redacts :
  (forall l : list value,
      exists c, clean (VArray l) = Ok c /\
                (forall k, In k blackList -> ~ In k (keys_of c)) /\
                serializeResult (VArray l) = present c) /\
  (forall ps : list (string * value),
      exists c, clean (VObject ps) = Ok c /\
                (forall k, In k blackList -> ~ In k (keys_of c)) /\
                serializeResult (VObject ps) = present c).
Proof.
  assert (Hno : forall x c, clean_at "" x = Some c ->
                forall k, In k blackList -> ~ In k (keys_of c)).
  { intros x c Hc k Hk Hin.
    apply blackList_includes_In in Hk.
    rewrite (clean_at_redacted x "" c Hc k Hin) in Hk. discriminate. }
  split.
  - intros l. eexists. split; [apply clean_array |]. split.
    + now apply (Hno (VArray l)).
    + reflexivity.
  - intros ps. eexists. split; [apply clean_object |]. split.
    + now apply (Hno (VObject ps)).
    + reflexivity.
Qed.

(** The rendering of [class_structure]: [links] and [etag] are gone, the
    BigInt is a string. *)
Example serializeResult_class_structure :
  serializeResult class_structure
  = text_result
      ("{" ++ LF
       ++ "  " ++ DQUOTE ++ "name" ++ DQUOTE ++ ": " ++ DQUOTE ++ "ZCL_FOO" ++ DQUOTE ++ "," ++ LF
       ++ "  " ++ DQUOTE ++ "components" ++ DQUOTE ++ ": [" ++ LF
       ++ "    {" ++ LF
       ++ "      " ++ DQUOTE ++ "name" ++ DQUOTE ++ ": " ++ DQUOTE ++ "RUN" ++ DQUOTE ++ "," ++ LF
       ++ "      " ++ DQUOTE ++ "size" ++ DQUOTE ++ ": " ++ DQUOTE ++ "12" ++ DQUOTE ++ LF
       ++ "    }" ++ LF
       ++ "  ]" ++ LF
       ++ "}").
Proof. reflexivity. Qed.

(** C7. Redaction is idempotent: a second pass of the cleaning (removal of
    the block-listed keys, BigInt to string) changes nothing. *)
Theorem redact_idempotent (v : value) : redact (redact v) = redact v.
Proof.
  unfold redact. destruct (clean_at "" v) as [j |] eqn:E; [| reflexivity].
  now rewrite (clean_at_fixed j (clean_at_redacted v "" j E) "" root_key_allowed).
Qed.

(** ** Absent data *)

(** C9. Every falsy input, the empty string among them, yields the text
    [No data returned from SAP], which is not empty. *)
Theorem serializeResult_no_data :
  (forall result, truthy result = false ->
                  serializeResult result = text_result "No data returned from SAP") /\
  serializeResult (VString "") = text_result "No data returned from SAP" /\
  "No data returned from SAP" <> "".
Proof.
  split; [| split; [reflexivity | discriminate]].
  intros result H. unfold serializeResult. now rewrite H.
Qed.

(** The empty string is falsy and yields the no-data text. *)
Lemma serializeResult_no_data_witness :
  truthy (VString "") = false /\
  serializeResult (VString "") = text_result "No data returned from SAP".
Proof.
  split; [reflexivity |].
  apply (proj1 serializeResult_no_data (VString "")). reflexivity.
Defined.

(** ** Strings *)

Lemma prefix_refl (p : string) : prefix p p = true.
Proof.
  induction p as [| c p IH]; simpl; [reflexivity |].
  destruct (ascii_dec c c); [assumption | contradiction].
Qed.

Lemma prefix_split (p s : string) :
  prefix p s = true -> exists r, s = p ++ r.
Proof.
  revert s. induction p as [| c p IH]; intros s H.
  - now exists s.
  - destruct s as [| d s]; simpl in H; [discriminate |].
    destruct (ascii_dec c d) as [<- |]; [| discriminate].
    destruct (IH s H) as [r ->]. now exists r.
Qed.

Lemma includes_app_self (s p : string) : JsString.includes (s ++ p) p = true.
Proof.
  induction s as [| c s IH]; cbn [append JsString.includes].
  - destruct p; cbn [JsString.includes]; now rewrite prefix_refl.
  - rewrite IH. apply orb_true_r.
Qed.

Lemma endsWith_app_self (s p : string) : JsString.endsWith (s ++ p) p = true.
Proof.
  induction s as [| c s IH]; cbn [append JsString.endsWith].
  - destruct p; cbn [JsString.endsWith]; now rewrite String.eqb_refl.
  - rewrite IH. apply orb_true_r.
Qed.

Lemma chars_app (a b : string) :
  JsString.chars (a ++ b) = (JsString.chars a ++ JsString.chars b)%list.
Proof.
  unfold JsString.chars.
  induction a as [| c a IH]; simpl; [reflexivity | now rewrite <- IH].
Qed.

Lemma trimEnd_cons (c : ascii) (r : string) :
  JsString.is_white_space c = false ->
  JsString.trimEnd (String c r) = String c (JsString.trimEnd r).
Proof.
  intros H. simpl. rewrite H. now destruct (JsString.trimEnd r).
Qed.

Lemma trimStart_chars (c : ascii) (s : string) :
  In c (JsString.chars (JsString.trimStart s)) -> In c (JsString.chars s).
Proof.
  unfold JsString.chars.
  induction s as [| d s IH]; simpl; [trivial |].
  destruct (JsString.is_white_space d); simpl; [| trivial].
  intros H. right. now apply IH.
Qed.

Lemma trimEnd_chars (c : ascii) (s : string) :
  In c (JsString.chars (JsString.trimEnd s)) -> In c (JsString.chars s).
Proof.
  unfold JsString.chars.
  induction s as [| d s IH]; simpl; [trivial |].
  destruct (JsString.trimEnd s) as [| e r] eqn:E.
  - destruct (JsString.is_white_space d); simpl; [contradiction |].
    intros [-> | []]. now left.
  - simpl. intros [-> | H]; [now left | right]. now apply IH.
Qed.

Lemma trim_chars (c : ascii) (s : string) :
  In c (JsString.chars (JsString.trim s)) -> In c (JsString.chars s).
Proof.
  intros H. now apply trimStart_chars, trimEnd_chars.
Qed.

(** The replacement leaves no [<] behind, closed or not. *)
Lemma strip_from_no_open (s : string) :
  forall in_tag, ~ In "<"%char (JsString.chars (JsString.strip_from in_tag s)).
Proof.
  unfold JsString.chars.
  induction s as [| c s IH]; intros in_tag; simpl; [tauto |].
  destruct in_tag.
  - destruct (Ascii.eqb c ">"); apply IH.
  - destruct (Ascii.eqb c "<") eqn:E; [apply IH |].
    simpl. intros [-> | H]; [discriminate | exact (IH false H)].
Qed.

Lemma tag_span_has_open (t : string) :
  has_tag_span t -> In "<"%char (JsString.chars t).
Proof.
  intros [a [b [c ->]]]. rewrite chars_app. apply in_or_app. right. now left.
Qed.

(** A text that begins with the XML declaration still does once trimmed. *)
Lemma trim_keeps_declaration (s : string) :
  JsString.startsWith s "<?xml" = true ->
  JsString.startsWith (JsString.trim s) "<?xml" = true.
Proof.
  intros H. destruct (prefix_split _ _ H) as [r ->].
  unfold JsString.trim, JsString.startsWith. cbn [append JsString.trimStart].
  change (JsString.is_white_space "<") with false. cbv iota.
  rewrite !trimEnd_cons by reflexivity. cbn.
  now destruct (JsString.trimEnd r).
Qed.

(** C4. A string that begins with the XML declaration is trimmed, stripped of
    every [<...>] span and trimmed again; the text that results has no [<]
    left, hence no tag span. *)
Theorem serializeResult_strips_xml (s : string) :
  JsString.startsWith s "<?xml" = true ->
  let out := JsString.trim (JsString.strip_tags (JsString.trim s)) in
  serializeResult (VString s) = text_result out /\
  ~ In "<"%char (JsString.chars out) /\
  ~ has_tag_span out.
Proof.
  intros H out.
  assert (Hopen : ~ In "<"%char (JsString.chars out)).
  { intros Hin. apply trim_chars in Hin. exact (strip_from_no_open _ _ Hin). }
  split; [| split; [assumption |]].
  - destruct (prefix_split _ _ H) as [r Hs].
    assert (Ht : truthy (VString s) = true) by now subst s.
    unfold serializeResult, render_string. rewrite Ht. simpl.
    now rewrite (trim_keeps_declaration s H).
  - intros Hspan. exact (Hopen (tag_span_has_open _ Hspan)).
Qed.

(** An ADT response reduced to the text between its tags. *)
Lemma serializeResult_strips_xml_witness :
  JsString.startsWith "<?xml version='1.0'?><adt:name>ZCL_FOO</adt:name> " "<?xml" = true /\
  serializeResult (VString "<?xml version='1.0'?><adt:name>ZCL_FOO</adt:name> ")
  = text_result "ZCL_FOO".
Proof.
  split; [reflexivity |].
  exact (proj1 (serializeResult_strips_xml
                  "<?xml version='1.0'?><adt:name>ZCL_FOO</adt:name> " eq_refl)).
Defined.

(** ** The source URL *)

(** C10. The URL that [handleGetObjectSourceCode] builds contains
    [/source/main], and building it again from its own result changes
    nothing. *)
Theorem sourceUrl_idempotent (objectUrl : string) :
  JsString.includes (sourceUrl objectUrl) "/source/main" = true /\
  sourceUrl (sourceUrl objectUrl) = sourceUrl objectUrl.
Proof.
  assert (H : JsString.includes (sourceUrl objectUrl) "/source/main" = true).
  { unfold sourceUrl.
    destruct (JsString.includes objectUrl "/source/main") eqn:E;
      [assumption | apply includes_app_self]. }
  split; [assumption |].
  unfold sourceUrl at 1. now rewrite H.
Qed.

(** ** Errors *)

Lemma append_assoc (a b c : string) : (a ++ b) ++ c = a ++ b ++ c.
Proof.
  induction a as [| x a IH]; simpl; [reflexivity | now rewrite IH].
Qed.

Lemma stringify_error_object (m c : string) :
  JSON.stringify (JObject [("error", JString m); ("code", JNumber c)])
  = "{" ++ DQUOTE ++ "error" ++ DQUOTE ++ ":" ++ JSON.quote m ++ ","
        ++ DQUOTE ++ "code" ++ DQUOTE ++ ":" ++ c ++ "}".
Proof.
  unfold JSON.stringify. cbn [JSON.serialize map fst snd]. unfold JSON.bracket.
  cbn [JSON.is_empty String.eqb JsString.join].
  change (JSON.quote "error") with (DQUOTE ++ "error" ++ DQUOTE).
  change (JSON.quote "code") with (DQUOTE ++ "code" ++ DQUOTE).
  unfold JSON.quote. rewrite !append_assoc. reflexivity.
Qed.

(** C3, amended. [handleError] turns an [McpError] into the text
    [{error, code}] of its message and code, and any other [Error], and any
    value that is not an [Error] and that [String] can convert, into the
    generic internal error, all flagged [isError]; when what the handlers
    throw is of these kinds the request handler completes normally, with the
    result of [serializeResult] or of [handleError]. *)
Theorem handleError_projects :
  (forall e : McpError,
      handleError (ThrownMcpError e)
      = Ok {| content :=
                [ {| type := "text";
                     text := "{" ++ DQUOTE ++ "error" ++ DQUOTE ++ ":" ++ JSON.quote (message e)
                                 ++ "," ++ DQUOTE ++ "code" ++ DQUOTE ++ ":"
                                 ++ Z_to_string (code e) ++ "}" |} ];
              isError := Some true |}) /\
  (forall m : string,
      handleError (ThrownError m)
      = Ok {| content := [ {| type := "text"; text := internal_error_text |} ];
              isError := Some true |}) /\
  (forall (v : value) (s : string),
      ToString v = Ok s ->
      handleError (ThrownValue v)
      = Ok {| content := [ {| type := "text"; text := internal_error_text |} ];
              isError := Some true |}) /\
  (forall (h : Handlers) (now name : string) (arguments : value),
      (forall v, dispatch h now name arguments = Abrupt (ThrownValue v) ->
                 exists s, ToString v = Ok s) ->
      exists r, callTool h now name arguments = Normal r /\
                ((exists result, dispatch h now name arguments = Normal result /\
                                 r = serializeResult result) \/
                 (exists error, dispatch h now name arguments = Abrupt error /\
                                handleError error = Ok r))).
Proof.
  split; [| split; [| split]].
  - intros e. unfold handleError. cbn [bind]. now rewrite stringify_error_object.
  - reflexivity.
  - intros v s Hs. unfold handleError. rewrite Hs. reflexivity.
  - intros h now name arguments Hv. unfold callTool.
    destruct (dispatch h now name arguments) as [result | error].
    + eexists. split; [reflexivity |]. left. now exists result.
    + destruct error as [e | m | v].
      * eexists. split; [reflexivity |]. right. eexists. split; reflexivity.
      * eexists. split; [reflexivity |]. right. eexists. split; reflexivity.
      * destruct (Hv v eq_refl) as [s Hs].
        unfold handleError. rewrite Hs. cbn [bind raise].
        eexists. split; [reflexivity |]. right.
        exists (ThrownValue v). split; [reflexivity |].
        unfold handleError. now rewrite Hs.
Qed.

(** A thrown string, and handlers that throw it. *)
Lemma handleError_projects_witness :
  handleError (ThrownValue (VString "boom")) = Ok (error_result internal_error_text) /\
  exists r,
    callTool (throwing_handlers (ThrownValue (VString "boom"))) "" "getObjects"
             (VObject [])
    = Normal r.
Proof.
  split.
  - exact (proj1 (proj2 (proj2 handleError_projects)) (VString "boom") "boom" eq_refl).
  - destruct (proj2 (proj2 (proj2 handleError_projects))
                    (throwing_handlers (ThrownValue (VString "boom"))) ""
                    "getObjects" (VObject [])) as [r [Hr _]].
    + intros v Hv. injection Hv as <-. now exists "boom".
    + now exists r.
Defined.

(** C3 as stated fails: for a thrown object that [String] cannot convert,
    [handleError] raises, and the request handler ends with that error
    instead of a result. *)
Lemma handleError_projects_counterexample :
  handleError (ThrownValue unprintable)
  = Throw (TypeError "Cannot convert object to primitive value") /\
  callTool (throwing_handlers (ThrownValue unprintable)) "" "getObjects" (VObject [])
  = Abrupt (ThrownError "Cannot convert object to primitive value") /\
  ~ (exists r,
        callTool (throwing_handlers (ThrownValue unprintable)) "" "getObjects"
                 (VObject [])
        = Normal r).
Proof.
  split; [reflexivity |]. split; [reflexivity |].
  intros [r Hr]. discriminate Hr.
Qed.

(** ** Lists *)

Lemma mapM_map {A B C : Type} (g : A -> B) (f : B -> Res C) (l : list A) :
  mapM f (map g l) = mapM (fun x => f (g x)) l.
Proof.
  induction l as [| x l IH]; simpl; [reflexivity | now rewrite IH].
Qed.

Lemma mapM_Forall2 {A B : Type} (f : A -> Res B) (l : list A) :
  forall ys, mapM f l = Ok ys -> Forall2 (fun x y => f x = Ok y) l ys.
Proof.
  induction l as [| x l IH]; simpl; intros ys H.
  - injection H as <-. constructor.
  - destruct (f x) as [y |] eqn:Ex; simpl in H; [| discriminate].
    destruct (mapM f l) as [ys' |]; simpl in H; [| discriminate].
    injection H as <-. constructor; [assumption | now apply IH].
Qed.

Lemma Get_defined (item : value) (key : string) :
  (exists v, Get item key = Ok v) ->
  forall key', Get item key' = Ok (Get_opt item key').
Proof.
  intros [v Hv] key'. unfold Get_opt.
  destruct item; simpl in *; try discriminate; try reflexivity;
    now destruct (String.eqb key' "length").
Qed.

Lemma or_lazy_fields (item : value) (a b : string) :
  (exists v, Get item a = Ok v) ->
  or_lazy (Get item a) (or_lazy (Get item b) (Ok (VString "")))
  = Ok (field_or_empty item [a; b]).
Proof.
  intros H. rewrite !(Get_defined item a H). unfold or_lazy. simpl.
  destruct (truthy (Get_opt item a)); [reflexivity |].
  now destruct (truthy (Get_opt item b)).
Qed.

Lemma or_lazy_field (item : value) (a : string) :
  (exists v, Get item a = Ok v) ->
  or_lazy (Get item a) (Ok (VString "")) = Ok (field_or_empty item [a]).
Proof.
  intros H. rewrite !(Get_defined item a H). unfold or_lazy. simpl.
  now destruct (truthy (Get_opt item a)).
Qed.

(** A rendered item line has the form [- {name} ({type}) {description}],
    with the fallbacks [name]/[ObjectName] and [type]/[ObjectType]. *)
Lemma render_item_line (item : value) (line : string) :
  render_item item = Ok line -> item_line item line.
Proof.
  unfold render_item. intros H.
  assert (Hd : exists v, Get item "name" = Ok v).
  { destruct (Get item "name") as [v |] eqn:E; [now exists v |].
    discriminate H. }
  assert (Hall : forall key, exists v, Get item key = Ok v).
  { intros key. eexists. apply (Get_defined item "name" Hd). }
  rewrite (or_lazy_fields item "name" "ObjectName" (Hall _)) in H.
  rewrite (or_lazy_fields item "type" "ObjectType" (Hall _)) in H.
  rewrite (or_lazy_field item "description" (Hall _)) in H.
  cbn [bind] in H.
  destruct (ToString (field_or_empty item ["name"; "ObjectName"])) as [n |] eqn:En;
    cbn [bind] in H; [| discriminate].
  destruct (ToString (field_or_empty item ["type"; "ObjectType"])) as [t |] eqn:Et;
    cbn [bind] in H; [| discriminate].
  destruct (ToString (field_or_empty item ["description"])) as [d |] eqn:Ed;
    cbn [bind] in H; [| discriminate].
  injection H as <-. exists n, t, d. repeat split; assumption.
Qed.

Lemma render_list_long (c : list json) (lines : list string) :
  50 < List.length c ->
  mapM render_item (map of_json (firstn 50 c)) = Ok lines ->
  render_list c
  = Ok (JsString.join LF lines ++ LF ++ LF ++ summary_line (List.length c - 50)).
Proof.
  intros Hlen Hm. rewrite mapM_map in Hm.
  destruct c as [| j c]; [simpl in Hlen; lia |].
  unfold render_list. rewrite Hm. cbn [bind].
  apply Nat.ltb_lt in Hlen. now rewrite Hlen.
Qed.

(** C2, amended. A sequence of more than 50 entries whose first 50 entries,
    once cleaned, can each be rendered yields exactly 50 item lines of the
    form [- {name} ({type}) {description}], one per entry, then an empty line
    and the summary line for the N - 50 entries left; with 64 entries the
    text ends with [...and 14 more objects.]. *)
Theorem serializeResult_truncates (l : list value) (lines : list string) :
  50 < List.length l ->
  mapM render_item (shown l) = Ok lines ->
  List.length lines = 50 /\
  Forall2 item_line (shown l) lines /\
  serializeResult (VArray l)
  = text_result (JsString.join LF lines ++ LF ++ LF ++ summary_line (List.length l - 50)) /\
  (List.length l = 64 ->
   JsString.endsWith
     (JsString.join LF lines ++ LF ++ LF ++ summary_line (List.length l - 50))
     "...and 14 more objects." = true).
Proof.
  intros Hlen Hm.
  pose proof (mapM_Forall2 _ _ _ Hm) as Hall.
  split; [| split; [| split]].
  - rewrite <- (Forall2_length Hall). unfold shown.
    rewrite length_map, firstn_length_le; [reflexivity |].
    rewrite walk_elems_length. lia.
  - revert Hall. apply Forall2_impl. exact render_item_line.
  - change (serializeResult (VArray l))
      with (present (JArray (JSON.walk_elems clean_at 0 l))).
    unfold present, render_clean.
    rewrite (render_list_long _ lines).
    + now rewrite walk_elems_length.
    + rewrite walk_elems_length. exact Hlen.
    + exact Hm.
  - intros ->. change (64 - 50) with 14.
    change (summary_line 14) with "...and 14 more objects.".
    rewrite <- 2 append_assoc. apply endsWith_app_self.
Qed.

(** The 64 mappings [{name, type}] of the scenario. *)
Lemma serializeResult_truncates_witness :
  50 < List.length sixty_four /\
  serializeResult (VArray sixty_four)
  = text_result (JsString.join LF (repeat "- ZCL_FOO (CLAS/OC) " 50)
                 ++ LF ++ LF ++ "...and 14 more objects.").
Proof.
  assert (Hlen : 50 < List.length sixty_four) by (apply Nat.ltb_lt; reflexivity).
  split; [exact Hlen |].
  exact (proj1 (proj2 (proj2
    (serializeResult_truncates sixty_four (repeat "- ZCL_FOO (CLAS/OC) " 50)
                               Hlen eq_refl)))).
Defined.

(** C2 as stated fails: a sequence of 51 [null] entries is not rendered as
    item lines and a summary, the result is the error of reading [name] of
    [null]. *)
Lemma serializeResult_truncates_counterexample :
  50 < List.length fifty_one_nulls /\
  serializeResult (VArray fifty_one_nulls)
  = error_result "Error: Cannot read properties of null (reading 'name')" /\
  ~ (exists lines,
        serializeResult (VArray fifty_one_nulls)
        = text_result (JsString.join LF lines ++ LF ++ LF ++ summary_line 1)).
Proof.
  split; [apply Nat.ltb_lt; reflexivity |].
  assert (H : serializeResult (VArray fifty_one_nulls)
              = error_result "Error: Cannot read properties of null (reading 'name')")
    by (vm_compute; reflexivity).
  split; [exact H |].
  intros [lines Hl]. rewrite H in Hl. discriminate.
Qed.

(** ** The path and the search handlers *)

Lemma Get_object (ps : list (string * value)) (key : string) :
  Get (VObject ps) key = Ok (field ps key).
Proof. reflexivity. Qed.

(** Reading a field with an optional chain off a falsy value gives
    [undefined]. *)
Lemma Get_opt_falsy (r : value) (key : string) :
  truthy r = false -> String.eqb key "length" = false -> Get_opt r key = VUndefined.
Proof.
  intros Hr Hk. unfold Get_opt.
  destruct r as [| | b | n | z | s | l | ps]; simpl in *; try reflexivity; try discriminate.
  rewrite Hk. destruct s; [reflexivity | discriminate].
Qed.

(** C5, amended. The root that [handleGetObjectPath] resolves is the value
    under the first candidate key, in the order class, generic object,
    program, table, that holds a truthy value; when no candidate holds one,
    as when none is present, the handler does not raise and the path it
    returns begins with the fallback package name [TMP]. *)
Theorem root_of_first_truthy (ps : list (string * value)) :
  root_of (VObject ps) = Ok (first_truthy_root ps) /\
  ((forall k, In k root_candidates -> truthy (field ps k) = false) ->
   exists rest,
     handleGetObjectPath (VObject ps)
     = Ok (VObject [("path", VString ("TMP > " ++ rest))])).
Proof.
  assert (Hroot : root_of (VObject ps) = Ok (first_truthy_root ps)).
  { unfold root_of, first_truthy_root, root_candidates, or_lazy.
    rewrite !Get_object. cbn [bind find].
    destruct (truthy (field ps "class:abapClass")); [reflexivity |].
    destruct (truthy (field ps "adtcore:object")); [reflexivity |].
    destruct (truthy (field ps "program:abapProgram")); [reflexivity |].
    now destruct (truthy (field ps "table:abapTable")). }
  split; [exact Hroot |].
  intros Hnone. exists "undefined".
  assert (Hr : first_truthy_root ps = field ps "table:abapTable").
  { unfold first_truthy_root, root_candidates. cbn [find].
    now rewrite !Hnone by (simpl; tauto). }
  assert (Hf : truthy (field ps "table:abapTable") = false)
    by (apply Hnone; simpl; tauto).
  unfold handleGetObjectPath. rewrite Hroot, Hr. cbn [bind].
  rewrite (Get_opt_falsy _ "_attributes" Hf eq_refl).
  rewrite (Get_opt_falsy _ "adtcore:packageRef" Hf eq_refl).
  reflexivity.
Qed.

(** A response with none of the candidate roots. *)
Lemma root_of_first_truthy_witness :
  exists rest,
    handleGetObjectPath (VObject [("other:root", VObject [])])
    = Ok (VObject [("path", VString ("TMP > " ++ rest))]).
Proof.
  apply (proj2 (root_of_first_truthy [("other:root", VObject [])])).
  intros k Hk. simpl in Hk.
  destruct Hk as [<- | [<- | [<- | [<- | []]]]]; reflexivity.
Defined.

(** C5 as stated fails: with a class root that is present and empty next to
    an object root, the first present candidate is the class root, and the
    handler resolves the object root. *)
Lemma root_of_first_truthy_counterexample :
  has_own empty_class_root "class:abapClass" = true /\
  first_present_root empty_class_root = VString "" /\
  root_of (VObject empty_class_root)
  = Ok (VObject [("_attributes", VObject [("adtcore:name", VString "ZOBJ")])]) /\
  root_of (VObject empty_class_root) <> Ok (first_present_root empty_class_root).
Proof.
  repeat split; try reflexivity. discriminate.
Qed.

(** C6, the code at the failing inputs. For a root without the attribute
    [adtcore:name] the path that [handleGetObjectPath] returns, and the text
    [serializeResult] renders of it, contain the word [undefined]; so does
    the line [handleGetObjects] returns for a hit without name, type and
    URI. *)
Theorem handleGetObjectPath_prints_undefined :
  handleGetObjectPath nameless_table
  = Ok (VObject [("path", VString "TMP > undefined")]) /\
  JsString.includes "TMP > undefined" "undefined" = true /\
  serializeResult (VObject [("path", VString "TMP > undefined")])
  = text_result ("{" ++ LF ++ "  " ++ DQUOTE ++ "path" ++ DQUOTE ++ ": "
                 ++ DQUOTE ++ "TMP > undefined" ++ DQUOTE ++ LF ++ "}") /\
  handleGetObjects (VArray [VObject []])
  = Normal (VString ("- undefined (undefined) " ++ LF ++ "  URL: undefined")).
Proof.
  repeat split; reflexivity.
Qed.

(** C8, amended. For the single hit of the scenario [handleGetObjects]
    returns the item line followed by a line break and the indented URL
    line, and [serializeResult] passes that text through unchanged. *)
Theorem handleGetObjects_single_hit :
  handleGetObjects single_hit = Normal (VString single_hit_text) /\
  serializeResult (VString single_hit_text) = text_result single_hit_text /\
  JsString.includes single_hit_text "- ZCL_FOO (CLAS/OC) " = true /\
  JsString.includes single_hit_text "  URL: /sap/bc/adt/oo/classes/zcl_foo" = true.
Proof.
  repeat split; reflexivity.
Qed.

(** C8 as stated fails: the text returned for the single hit does not contain
    the expected text, in which no line break separates the item from its
    URL. *)
Lemma handleGetObjects_single_hit_counterexample :
  handleGetObjects single_hit = Normal (VString single_hit_text) /\
  serializeResult (VString single_hit_text) = text_result single_hit_text /\
  JsString.includes single_hit_text expected_hit_text = false.
Proof.
  repeat split; reflexivity.
Qed.

(** * Further properties of the server *)

(** ** Sequences *)

Lemma walk_elems_app (f : string -> value -> option json) (l r : list value) :
  forall i, JSON.walk_elems f i (l ++ r)
            = (JSON.walk_elems f i l ++ JSON.walk_elems f (i + List.length l) r)%list.
Proof.
  induction l as [| x l IH]; intros i; simpl.
  - now rewrite Nat.add_0_r.
  - rewrite IH. now rewrite Nat.add_succ_r.
Qed.

(** Only the first 50 entries of a sequence are looked at. *)
Lemma shown_app (l r : list value) :
  List.length l = 50 -> shown (l ++ r) = shown l.
Proof.
  intros H. unfold shown. rewrite walk_elems_app.
  rewrite firstn_app, walk_elems_length, H, Nat.sub_diag. cbn [firstn].
  now rewrite app_nil_r.
Qed.

Lemma serializeResult_array (l : list value) :
  serializeResult (VArray l) = present (JArray (JSON.walk_elems clean_at 0 l)).
Proof. reflexivity. Qed.

(** X1. A sequence of at most 50 entries is rendered whole and without a
    summary line: the empty one as [Empty list], any other one, when its
    entries can be rendered, as one item line per entry. *)
Theorem serializeResult_short_list :
  serializeResult (VArray []) = text_result "Empty list" /\
  forall (l : list value) (lines : list string),
    l <> [] -> List.length l <= 50 ->
    mapM render_item (shown l) = Ok lines ->
    List.length lines = List.length l /\
    serializeResult (VArray l) = text_result (JsString.join LF lines).
Proof.
  split; [reflexivity |].
  intros l lines Hne Hlen Hm.
  assert (Hall : firstn 50 (JSON.walk_elems clean_at 0 l) = JSON.walk_elems clean_at 0 l)
    by (apply firstn_all2; now rewrite walk_elems_length).
  unfold shown in Hm. rewrite Hall in Hm. split.
  - rewrite <- (Forall2_length (mapM_Forall2 _ _ _ Hm)).
    now rewrite length_map, walk_elems_length.
  - rewrite serializeResult_array. unfold present, render_clean, render_list.
    rewrite mapM_map in Hm.
    destruct l as [| x l]; [contradiction |].
    cbn [JSON.walk_elems]. cbn [JSON.walk_elems] in Hall, Hm.
    rewrite Hall, Hm. cbn [bind].
    assert (Hlt : (50 <? List.length (JSON.walk_elems clean_at 0 (x :: l)))%nat = false)
      by (apply Nat.ltb_ge; now rewrite walk_elems_length).
    cbn [JSON.walk_elems] in Hlt. now rewrite Hlt.
Qed.

(** The sequence of the scenario, cut to its first three entries. *)
Lemma serializeResult_short_list_witness :
  serializeResult (VArray (firstn 3 sixty_four))
  = text_result (JsString.join LF (repeat "- ZCL_FOO (CLAS/OC) " 3)).
Proof.
  apply (proj2 serializeResult_short_list (firstn 3 sixty_four)
               (repeat "- ZCL_FOO (CLAS/OC) " 3)).
  - discriminate.
  - apply Nat.leb_le. reflexivity.
  - reflexivity.
Defined.

(** X2. When one of the first 50 entries of a sequence cannot be rendered,
    the whole result is the error of that entry, flagged [isError]: no line
    of the other entries is returned. *)
Theorem serializeResult_list_error (l : list value) (e : exn) :
  mapM render_item (shown l) = Throw e ->
  serializeResult (VArray l) = error_result ("Error: " ++ exn_message e).
Proof.
  intros Hm. unfold shown in Hm. rewrite mapM_map in Hm.
  rewrite serializeResult_array. unfold present, render_clean, render_list.
  destruct (JSON.walk_elems clean_at 0 l) as [| j c]; [discriminate |].
  now rewrite Hm.
Qed.

(** One [null] among mappings. *)
Lemma serializeResult_list_error_witness :
  serializeResult (VArray [VObject [("name", VString "A")]; VNull])
  = error_result "Error: Cannot read properties of null (reading 'name')".
Proof.
  apply (serializeResult_list_error
           [VObject [("name", VString "A")]; VNull]
           (cannot_read "null" "name")).
  reflexivity.
Defined.

(** X3. The entries after the 50th are counted and never rendered: whatever
    they are, the text is the 50 item lines of the first 50 entries and the
    summary line with their number. *)
Theorem serializeResult_ignores_rest (l r : list value) (lines : list string) :
  List.length l = 50 -> r <> [] ->
  mapM render_item (shown l) = Ok lines ->
  serializeResult (VArray (l ++ r))
  = text_result (JsString.join LF lines ++ LF ++ LF ++ summary_line (List.length r)).
Proof.
  intros Hl Hr Hm.
  assert (Hlen : List.length (l ++ r) = 50 + List.length r)
    by (now rewrite length_app, Hl).
  rewrite serializeResult_array. unfold present, render_clean.
  rewrite (render_list_long _ lines).
  - rewrite walk_elems_length, Hlen.
    now replace (50 + List.length r - 50) with (List.length r) by lia.
  - rewrite walk_elems_length, Hlen. destruct r; [contradiction | simpl; lia].
  - fold (shown (l ++ r)). now rewrite shown_app.
Qed.

(** Fifty mappings followed by a [null]. *)
Lemma serializeResult_ignores_rest_witness :
  serializeResult (VArray (firstn 50 sixty_four ++ [VNull]))
  = text_result (JsString.join LF (repeat "- ZCL_FOO (CLAS/OC) " 50)
                 ++ LF ++ LF ++ "...and 1 more objects.").
Proof.
  apply (serializeResult_ignores_rest (firstn 50 sixty_four) [VNull]
                                      (repeat "- ZCL_FOO (CLAS/OC) " 50)).
  - reflexivity.
  - discriminate.
  - reflexivity.
Defined.

(** ** Strings given to [serializeResult] *)

Lemma includes_first_char (t p : string) (c : ascii) :
  JsString.includes t (String c p) = true -> In c (JsString.chars t).
Proof.
  unfold JsString.chars.
  induction t as [| d t IH]; cbn [JsString.includes]; intros H.
  - simpl in H. discriminate.
  - apply orb_true_iff in H. destruct H as [H | H].
    + simpl in H. destruct (ascii_dec c d) as [-> |]; [now left | discriminate].
    + right. now apply IH.
Qed.

Lemma startsWith_first_char (t p : string) (c : ascii) :
  JsString.startsWith t (String c p) = true -> In c (JsString.chars t).
Proof.
  intros H. apply (includes_first_char t p).
  unfold JsString.startsWith in H. destruct t; cbn [JsString.includes]; now rewrite H.
Qed.

(** Without a [<] neither trigger of the stripping applies. *)
Lemma no_open_no_trigger (t : string) :
  ~ In "<"%char (JsString.chars t) ->
  JsString.startsWith t "<?xml" || JsString.includes t "<adt:" = false.
Proof.
  intros H. apply orb_false_iff. split.
  - destruct (JsString.startsWith t "<?xml") eqn:E; [| reflexivity].
    now apply startsWith_first_char in E.
  - destruct (JsString.includes t "<adt:") eqn:E; [| reflexivity].
    now apply includes_first_char in E.
Qed.

Lemma trimStart_fixed (t : string) :
  match t with
  | "" => True
  | String c _ => JsString.is_white_space c = false
  end ->
  JsString.trimStart t = t.
Proof.
  destruct t as [| c t]; simpl; [reflexivity |]. now intros ->.
Qed.

Lemma trimStart_head (s : string) :
  match JsString.trimStart s with
  | "" => True
  | String c _ => JsString.is_white_space c = false
  end.
Proof.
  induction s as [| c s IH]; simpl; [exact I |].
  destruct (JsString.is_white_space c) eqn:E; [exact IH | exact E].
Qed.

Lemma trimEnd_head (s : string) :
  match s with
  | "" => True
  | String c _ => JsString.is_white_space c = false
  end ->
  match JsString.trimEnd s with
  | "" => True
  | String c _ => JsString.is_white_space c = false
  end.
Proof.
  destruct s as [| c s]; [trivial |]. intros H. now rewrite trimEnd_cons.
Qed.

Lemma trimEnd_idempotent (s : string) :
  JsString.trimEnd (JsString.trimEnd s) = JsString.trimEnd s.
Proof.
  induction s as [| c s IH]; [reflexivity |].
  cbn [JsString.trimEnd].
  destruct (JsString.trimEnd s) as [| d r] eqn:E.
  - destruct (JsString.is_white_space c) eqn:Ec; [reflexivity |].
    simpl. now rewrite Ec.
  - cbn [JsString.trimEnd]. cbn [JsString.trimEnd] in IH.
    now destruct (JsString.trimEnd r); rewrite IH.
Qed.

Lemma trim_idempotent (s : string) :
  JsString.trim (JsString.trim s) = JsString.trim s.
Proof.
  unfold JsString.trim.
  rewrite (trimStart_fixed _ (trimEnd_head _ (trimStart_head s))).
  apply trimEnd_idempotent.
Qed.

Lemma serializeResult_string (s : string) :
  s <> "" -> serializeResult (VString s) = text_result (render_string s).
Proof.
  intros H. unfold serializeResult.
  destruct s; [contradiction | reflexivity].
Qed.

(** X4. What happens to a string depends on its trimmed text alone: when it
    begins with [<?xml] or contains [<adt:] anywhere, every [<...>] span is
    removed and no [<] is left; otherwise it is returned trimmed and
    otherwise unchanged. *)
Theorem serializeResult_string_markup (s : string) :
  s <> "" ->
  (JsString.startsWith (JsString.trim s) "<?xml" = true \/
   JsString.includes (JsString.trim s) "<adt:" = true ->
   serializeResult (VString s)
   = text_result (JsString.trim (JsString.strip_tags (JsString.trim s))) /\
   ~ In "<"%char
        (JsString.chars (JsString.trim (JsString.strip_tags (JsString.trim s))))) /\
  (JsString.startsWith (JsString.trim s) "<?xml" = false ->
   JsString.includes (JsString.trim s) "<adt:" = false ->
   serializeResult (VString s) = text_result (JsString.trim s)).
Proof.
  intros Hs. rewrite (serializeResult_string s Hs). unfold render_string. split.
  - intros H. split.
    + destruct H as [-> | ->]; [reflexivity | now rewrite orb_true_r].
    + intros Hin. apply trim_chars in Hin. exact (strip_from_no_open _ _ Hin).
  - now intros -> ->.
Qed.

(** A source line with a field symbol and the text [<adt:] in a comment. *)
Lemma serializeResult_string_markup_witness :
  serializeResult (VString "ASSIGN x TO <fs>. * <adt:")
  = text_result "ASSIGN x TO . *".
Proof.
  refine (proj1 (proj1 (serializeResult_string_markup
                          "ASSIGN x TO <fs>. * <adt:" _) _)).
  - discriminate.
  - right. reflexivity.
Defined.

Lemma render_string_trimmed (s : string) :
  JsString.trim (render_string s) = render_string s.
Proof.
  unfold render_string.
  destruct (JsString.startsWith (JsString.trim s) "<?xml"
            || JsString.includes (JsString.trim s) "<adt:");
    apply trim_idempotent.
Qed.

Lemma render_string_idempotent (s : string) :
  render_string (render_string s) = render_string s.
Proof.
  unfold render_string at 1. rewrite render_string_trimmed.
  enough (H : JsString.startsWith (render_string s) "<?xml"
              || JsString.includes (render_string s) "<adt:" = false) by now rewrite H.
  unfold render_string.
  destruct (JsString.startsWith (JsString.trim s) "<?xml"
            || JsString.includes (JsString.trim s) "<adt:") eqn:E; [| exact E].
  apply no_open_no_trigger. intros Hin.
  apply trim_chars in Hin. exact (strip_from_no_open _ _ Hin).
Qed.

(** X5. The text returned for a string has no white space at either end, and
    it is stable: given back to [serializeResult], a text that is not empty
    is returned as it is. *)
Theorem serializeResult_string_stable (s : string) :
  s <> "" ->
  exists t,
    serializeResult (VString s) = text_result t /\
    JsString.trim t = t /\
    (t <> "" -> serializeResult (VString t) = text_result t).
Proof.
  intros Hs. exists (render_string s). split; [| split].
  - now apply serializeResult_string.
  - apply render_string_trimmed.
  - intros Ht. rewrite (serializeResult_string _ Ht).
    now rewrite render_string_idempotent.
Qed.

(** A response reduced to its text, which a second pass leaves alone. *)
Lemma serializeResult_string_stable_witness :
  exists t,
    serializeResult (VString " <?xml?><a>ZCL_FOO</a> ") = text_result t /\
    JsString.trim t = t /\
    (t <> "" -> serializeResult (VString t) = text_result t).
Proof.
  apply (serializeResult_string_stable " <?xml?><a>ZCL_FOO</a> "). discriminate.
Defined.

Lemma trimStart_blank (s : string) :
  blank s = true -> JsString.trimStart s = "".
Proof.
  unfold blank, JsString.chars.
  induction s as [| c s IH]; simpl; [reflexivity |].
  intros H. apply andb_true_iff in H. destruct H as [-> H]. now apply IH.
Qed.

(** X6. A string that is not empty and holds white space only is not taken
    for absent data: the text returned for it is empty. *)
Theorem serializeResult_blank_string (s : string) :
  s <> "" -> blank s = true -> serializeResult (VString s) = text_result "".
Proof.
  intros Hs Hb. rewrite (serializeResult_string s Hs).
  unfold render_string, JsString.trim. now rewrite (trimStart_blank s Hb).
Qed.

(** A line break alone. *)
Lemma serializeResult_blank_string_witness :
  serializeResult (VString LF) = text_result "".
Proof.
  apply (serializeResult_blank_string LF); [discriminate | reflexivity].
Defined.

(** ** Mappings and scalars *)

(** X7. Cleaning touches nothing else: JSON data in which no field name is
    block-listed comes out of the cleaning pass as it went in, and a mapping
    of such data is rendered as its indented JSON text. *)
Theorem clean_keeps_json (j : json) :
  redacted j ->
  clean (of_json j) = Ok j /\
  (forall ps, j = JObject ps ->
              serializeResult (of_json j) = text_result (JSON.stringify_pretty j)).
Proof.
  intros Hr.
  assert (Hc : clean_at "" (of_json j) = Some j)
    by exact (clean_at_fixed j Hr "" root_key_allowed).
  split.
  - unfold clean. now rewrite Hc.
  - intros ps ->. unfold serializeResult, clean.
    cbn [of_json truthy negb]. cbn [of_json] in Hc. now rewrite Hc.
Qed.

(** A mapping with a nested sequence. *)
Lemma clean_keeps_json_witness :
  clean (VObject [("name", VString "ZTAB"); ("fields", VArray [VString "MANDT"])])
  = Ok (JObject [("name", JString "ZTAB"); ("fields", JArray [JString "MANDT"])]).
Proof.
  refine (proj1 (clean_keeps_json
                   (JObject [("name", JString "ZTAB");
                             ("fields", JArray [JString "MANDT"])]) _)).
  intros k Hk. simpl in Hk.
  destruct Hk as [<- | [<- | []]]; reflexivity.
Defined.

(** X8. Among the inputs that are finite trees of plain data, which is what
    [value] holds (no cycle, function or accessor), only a sequence can make
    [serializeResult] report an error: for a mapping, a string or a scalar
    the result is not flagged [isError]. *)
Theorem serializeResult_error_only_for_sequences (result : value) :
  (forall l, result <> VArray l) -> isError (serializeResult result) = None.
Proof.
  intros Hna. unfold serializeResult.
  destruct (truthy result) eqn:Ht; [| reflexivity]. cbn [negb].
  destruct result as [| | b | n | z | s | l | ps]; try discriminate; try reflexivity.
  - destruct n as [t | | | neg]; try discriminate; reflexivity.
  - now destruct (Hna l).
Qed.

(** A mapping that holds a [null]. *)
Lemma serializeResult_error_only_for_sequences_witness :
  isError (serializeResult (VObject [("nodes", VNull)])) = None.
Proof.
  apply serializeResult_error_only_for_sequences. discriminate.
Defined.

(** ** The dispatcher *)

Lemma one_of_false (name : string) (names : list string) :
  one_of name names = false -> forall n, In n names -> String.eqb name n = false.
Proof.
  unfold one_of. intros H n Hn.
  destruct (String.eqb name n) eqn:E; [| reflexivity].
  rewrite <- H. symmetry. apply existsb_exists. now exists n.
Qed.

(** X10. A tool name that the [switch] does not know reaches no handler: the
    result is the error text of [McpError(MethodNotFound)] naming the tool,
    whatever the handlers are. *)
Theorem callTool_unknown_tool
        (h : Handlers) (now name : string) (arguments : value) :
  one_of name tool_names = false ->
  callTool h now name arguments
  = Normal (error_result
              (mcp_error_text ("MCP error -32601: Unknown tool: " ++ name)
                              ErrorCode.MethodNotFound)).
Proof.
  intros H.
  assert (Hn : forall n, In n tool_names -> String.eqb name n = false)
    by exact (one_of_false name tool_names H).
  unfold callTool, dispatch, one_of. cbn [existsb].
  rewrite !Hn by (simpl; tauto). cbn [orb].
  unfold handleError, new_McpError. cbn [message code bind raise].
  now rewrite stringify_error_object.
Qed.

(** A name no handler has. *)
Lemma callTool_unknown_tool_witness :
  callTool idle_handlers "2026-01-01T00:00:00.000Z" "dropTable" (VObject [])
  = Normal (error_result
              (mcp_error_text "MCP error -32601: Unknown tool: dropTable"
                              ErrorCode.MethodNotFound)).
Proof.
  apply (callTool_unknown_tool idle_handlers "2026-01-01T00:00:00.000Z"
                               "dropTable" (VObject [])).
  reflexivity.
Defined.

(** X11. A value that already has the shape of a tool result, as
    [handleClassComponents] of the client-library class handler returns, is
    not passed through: it is rendered as the indented JSON text of that
    object, with its text quoted inside. *)
Theorem serializeResult_wraps_again (t : string) :
  serializeResult (tool_result_value t)
  = text_result
      ("{" ++ LF
       ++ "  " ++ DQUOTE ++ "content" ++ DQUOTE ++ ": [" ++ LF
       ++ "    {" ++ LF
       ++ "      " ++ DQUOTE ++ "type" ++ DQUOTE ++ ": " ++ DQUOTE ++ "text" ++ DQUOTE
       ++ "," ++ LF
       ++ "      " ++ DQUOTE ++ "text" ++ DQUOTE ++ ": " ++ JSON.quote t ++ LF
       ++ "    }" ++ LF
       ++ "  ]" ++ LF
       ++ "}").
Proof.
  change (serializeResult (tool_result_value t))
    with (text_result
            (JSON.stringify_pretty
               (JObject [("content",
                          JArray [JObject [("type", JString "text");
                                           ("text", JString t)]])]))).
  f_equal. unfold JSON.stringify_pretty. cbn [JSON.serialize map fst snd].
  unfold JSON.bracket. cbn [JSON.is_empty String.eqb Ascii.eqb Bool.eqb JsString.join].
  change (JSON.quote "content") with (DQUOTE ++ "content" ++ DQUOTE).
  change (JSON.quote "type") with (DQUOTE ++ "type" ++ DQUOTE).
  change (JSON.quote "text") with (DQUOTE ++ "text" ++ DQUOTE).
  unfold JSON.quote. rewrite !append_assoc. reflexivity.
Qed.

(** ** The constructor *)

Lemma missingVars_spec (env : string -> option string) (v : string) :
  In v (missingVars env) <-> In v required_vars /\ ~ is_set env v.
Proof.
  unfold missingVars, required_vars, is_set. rewrite filter_In.
  split; intros [Hin H]; (split; [exact Hin |]).
  - intros [s [Hs Hne]]. rewrite Hs in H. apply String.eqb_eq in H. contradiction.
  - destruct (env v) as [s |]; [| reflexivity].
    apply String.eqb_eq. destruct s as [| c s]; [reflexivity |].
    exfalso. apply H. now exists (String c s).
Qed.

Lemma unset_spec (env : string -> option string) (v : string) :
  unset env v = true <-> ~ is_set env v.
Proof.
  unfold unset, is_set. split.
  - intros H [s [Hs Hne]]. rewrite Hs in H. apply String.eqb_eq in H. contradiction.
  - intros H. destruct (env v) as [s |]; [| reflexivity].
    apply String.eqb_eq. destruct s as [| c s]; [reflexivity |].
    exfalso. apply H. now exists (String c s).
Qed.

Lemma missingVars_in_order (env : string -> option string) :
  missingVars env
  = ((if unset env "SAP_URL" then ["SAP_URL"] else [])
     ++ (if unset env "SAP_USER" then ["SAP_USER"] else [])
     ++ (if unset env "SAP_PASSWORD" then ["SAP_PASSWORD"] else []))%list.
Proof.
  unfold missingVars, unset. cbn [filter].
  destruct (match env "SAP_URL" with Some s => String.eqb s "" | None => true end);
    destruct (match env "SAP_USER" with Some s => String.eqb s "" | None => true end);
    destruct (match env "SAP_PASSWORD" with Some s => String.eqb s "" | None => true end);
    reflexivity.
Qed.

(** X12. The constructor goes on exactly when [SAP_URL], [SAP_USER] and
    [SAP_PASSWORD] are all set to a string that is not empty; otherwise it
    throws, and its message lists the variables that are missing or empty,
    and only them, in the order [SAP_URL], [SAP_USER], [SAP_PASSWORD],
    separated by a comma and a space. *)
Theorem constructor_check_spec (env : string -> option string) :
  (constructor_check env = None <-> forall v, In v required_vars -> is_set env v) /\
  (forall v, unset env v = true <-> ~ is_set env v) /\
  (forall m, constructor_check env = Some m ->
             m = "Missing required environment variables: "
                 ++ JsString.join ", "
                      ((if unset env "SAP_URL" then ["SAP_URL"] else [])
                       ++ (if unset env "SAP_USER" then ["SAP_USER"] else [])
                       ++ (if unset env "SAP_PASSWORD" then ["SAP_PASSWORD"] else []))).
Proof.
  split; [| split].
  - unfold constructor_check.
    destruct (missingVars env) as [| x r] eqn:E; simpl; split; try discriminate.
    + intros _ v Hv.
      destruct (env v) as [s |] eqn:Ev.
      * destruct s as [| c s]; [| exists (String c s); split; [exact Ev | discriminate]].
        assert (Hin : In v (missingVars env)).
        { apply missingVars_spec. split; [exact Hv |].
          intros [s [Hs Hne]]. rewrite Ev in Hs. injection Hs as <-. contradiction. }
        rewrite E in Hin. contradiction.
      * assert (Hin : In v (missingVars env)).
        { apply missingVars_spec. split; [exact Hv |].
          intros [s [Hs _]]. rewrite Ev in Hs. discriminate. }
        rewrite E in Hin. contradiction.
    + intros _. reflexivity.
    + intros H. exfalso.
      assert (Hin : In x (missingVars env)) by (rewrite E; now left).
      apply missingVars_spec in Hin. destruct Hin as [Hin Hns]. exact (Hns (H x Hin)).
  - apply unset_spec.
  - intros m Hm. unfold constructor_check in Hm.
    destruct (0 <? List.length (missingVars env))%nat; [| discriminate].
    injection Hm as <-. now rewrite missingVars_in_order.
Qed.

(** An environment that has the user only. *)
Lemma constructor_check_spec_witness :
  constructor_check user_only
  = Some "Missing required environment variables: SAP_URL, SAP_PASSWORD" /\
  "Missing required environment variables: SAP_URL, SAP_PASSWORD"
  = "Missing required environment variables: "
    ++ JsString.join ", "
         ((if unset user_only "SAP_URL" then ["SAP_URL"] else [])
          ++ (if unset user_only "SAP_USER" then ["SAP_USER"] else [])
          ++ (if unset user_only "SAP_PASSWORD" then ["SAP_PASSWORD"] else [])).
Proof.
  split; [reflexivity |].
  exact (proj2 (proj2 (constructor_check_spec user_only)) _ eq_refl).
Defined.

(** ** The search query and its URL *)

Lemma includes_tail (c : ascii) (s p : string) :
  JsString.includes (String c s) p = false -> JsString.includes s p = false.
Proof.
  cbn [JsString.includes]. intros H. now apply orb_false_iff in H.
Qed.

Lemma replace_dot_star_clean (q : string) :
  JsString.includes q ".*" = false -> replace_dot_star q = q.
Proof.
  induction q as [| c q IH]; [reflexivity |]. intros H.
  pose proof (includes_tail _ _ _ H) as Ht.
  cbn [replace_dot_star].
  destruct (Ascii.eqb c ".") eqn:Ec; [| now rewrite IH].
  destruct q as [| d q]; [reflexivity |].
  destruct (Ascii.eqb d "*") eqn:Ed; [| now rewrite IH].
  apply Ascii.eqb_eq in Ec, Ed. subst c d.
  cbn [JsString.includes] in H. apply orb_false_iff in H. destruct H as [H _].
  simpl in H. destruct q; discriminate H.
Qed.

Lemma replace_dot_star_length_upto (n : nat) :
  forall q, String.length q <= n ->
            String.length (replace_dot_star q) <= String.length q.
Proof.
  induction n as [| n IH]; intros q Hq.
  - destruct q; [simpl; lia | simpl in Hq; lia].
  - destruct q as [| c q]; [simpl; lia |].
    cbn [replace_dot_star].
    destruct (Ascii.eqb c ".").
    + destruct q as [| d q]; [simpl; lia |].
      destruct (Ascii.eqb d "*").
      * simpl in *. specialize (IH q). lia.
      * simpl in *. specialize (IH (String d q)). simpl in IH. lia.
    + simpl in *. specialize (IH q). lia.
Qed.

(** X13. The normalisation of a search query, [.*] to [*], leaves a query
    without [.*] as it is, and never makes a query longer. *)
Theorem replace_dot_star_spec (q : string) :
  (JsString.includes q ".*" = false -> replace_dot_star q = q) /\
  String.length (replace_dot_star q) <= String.length q.
Proof.
  split; [apply replace_dot_star_clean |].
  now apply (replace_dot_star_length_upto (String.length q)).
Qed.

(** A glob that has no [.*] in it. *)
Lemma replace_dot_star_spec_witness : replace_dot_star "ZCL_*.FOO" = "ZCL_*.FOO".
Proof.
  apply (proj1 (replace_dot_star_spec "ZCL_*.FOO")). reflexivity.
Defined.

Lemma HEX_unreserved (k : nat) : URI.is_unreserved (URI.HEX k) = true.
Proof.
  unfold URI.HEX.
  destruct (nth_in_or_default k (JsString.chars "0123456789ABCDEF") "0"%char)
    as [Hin | ->]; [| reflexivity].
  remember (nth k (JsString.chars "0123456789ABCDEF") "0"%char) as x eqn:Ex.
  clear Ex. simpl in Hin.
  repeat (destruct Hin as [<- | Hin]; [reflexivity |]). contradiction.
Qed.

Lemma percent_safe (octet : nat) (c : ascii) :
  In c (JsString.chars (URI.percent octet)) ->
  URI.is_unreserved c = true \/ c = "%"%char.
Proof.
  unfold URI.percent. simpl.
  intros [<- | [<- | [<- | []]]]; [now right | left | left]; apply HEX_unreserved.
Qed.

Lemma encode_unit_safe (x c : ascii) :
  In c (JsString.chars (URI.encode_unit x)) ->
  URI.is_unreserved c = true \/ c = "%"%char.
Proof.
  unfold URI.encode_unit.
  destruct (URI.is_unreserved x) eqn:E.
  - simpl. intros [<- | []]. now left.
  - destruct (nat_of_ascii x <? 128)%nat.
    + apply percent_safe.
    + rewrite chars_app. intros H. apply in_app_or in H.
      destruct H as [H | H]; exact (percent_safe _ _ H).
Qed.

Lemma encodeURIComponent_safe (s : string) (c : ascii) :
  In c (JsString.chars (URI.encodeURIComponent s)) ->
  URI.is_unreserved c = true \/ c = "%"%char.
Proof.
  induction s as [| x s IH]; simpl; [contradiction |].
  rewrite chars_app. intros H. apply in_app_or in H.
  destruct H as [H | H]; [exact (encode_unit_safe _ _ H) | exact (IH H)].
Qed.

Lemma safe_not_delimiter (c : ascii) :
  URI.is_unreserved c = true \/ c = "%"%char -> ~ In c delimiters.
Proof.
  intros H Hin. unfold delimiters in Hin. simpl in Hin.
  repeat (destruct Hin as [<- | Hin]; [destruct H as [H | H]; discriminate |]).
  contradiction.
Qed.

(** X14. [encodeURIComponent] returns a text of unreserved characters and
    [%] only, so none of [& = ? # / +] and no space; a text of unreserved
    characters is returned unchanged. *)
Theorem encodeURIComponent_spec (s : string) :
  (forall c, In c (JsString.chars (URI.encodeURIComponent s)) ->
             (URI.is_unreserved c = true \/ c = "%"%char) /\ ~ In c delimiters) /\
  (forallb URI.is_unreserved (JsString.chars s) = true ->
   URI.encodeURIComponent s = s).
Proof.
  split.
  - intros c Hc. pose proof (encodeURIComponent_safe s c Hc) as H.
    split; [exact H | exact (safe_not_delimiter c H)].
  - unfold JsString.chars.
    induction s as [| x s IH]; simpl; [reflexivity |].
    intros H. apply andb_true_iff in H. destruct H as [Hx Hs].
    unfold URI.encode_unit. rewrite Hx. simpl. now rewrite IH.
Qed.

(** The name of a package. *)
Lemma encodeURIComponent_spec_witness : URI.encodeURIComponent "ZPKG_01" = "ZPKG_01".
Proof.
  apply (proj2 (encodeURIComponent_spec "ZPKG_01")). reflexivity.
Defined.

(** X15. The search of the REST handler asks for nothing when the query is
    missing or empty: it throws [McpError(InvalidParams)]. For a query that is
    a string, and no [maxResults], the URL it requests is the search URL with
    the normalised query, encoded, as its [query] parameter and 100 as
    [maxResults]; no character of the query can end or split that
    parameter. *)
Theorem handleGetObjects_request_spec (baseUrl : string) :
  (forall args, truthy (Get_opt args "query") = false ->
                handleGetObjects_request baseUrl args
                = Abrupt (ThrownMcpError
                            (new_McpError ErrorCode.InvalidParams
                                          "Search query is required"))) /\
  (forall ps q,
      field ps "query" = VString q -> q <> "" ->
      truthy (field ps "maxResults") = false ->
      handleGetObjects_request baseUrl (VObject ps)
      = Normal (baseUrl
                ++ "/sap/bc/adt/repository/informationsystem/search?operation=quickSearch&query="
                ++ URI.encodeURIComponent (replace_dot_star q) ++ "&maxResults=100") /\
      forall c, In c (JsString.chars (URI.encodeURIComponent (replace_dot_star q))) ->
                ~ In c delimiters).
Proof.
  split.
  - intros args H. unfold handleGetObjects_request. now rewrite H.
  - intros ps q Hq Hne Hm. split.
    + unfold handleGetObjects_request, Get_opt. rewrite !Get_object, Hq.
      destruct q as [| c q]; [contradiction |].
      cbn [truthy String.eqb negb bind raise]. unfold or_else. rewrite Hm.
      reflexivity.
    + intros c Hc. exact (proj2 (proj1 (encodeURIComponent_spec _) c Hc)).
Qed.

(** A query that tries to add a parameter. *)
Lemma handleGetObjects_request_spec_witness :
  handleGetObjects_request "http://sap" (VObject [("query", VString "Z.*&maxResults=9")])
  = Normal "http://sap/sap/bc/adt/repository/informationsystem/search?operation=quickSearch&query=Z*%26maxResults%3D9&maxResults=100".
Proof.
  refine (proj1 (proj2 (handleGetObjects_request_spec "http://sap")
                       [("query", VString "Z.*&maxResults=9")] "Z.*&maxResults=9"
                       _ _ _)).
  - reflexivity.
  - discriminate.
  - reflexivity.
Defined.

(** ** The path of the REST handler *)

Lemma root_of_object (ps : list (string * value)) :
  root_of (VObject ps) = Ok (first_truthy_root ps).
Proof.
  unfold root_of, first_truthy_root, root_candidates, or_lazy.
  rewrite !Get_object. cbn [bind find].
  destruct (truthy (field ps "class:abapClass")); [reflexivity |].
  destruct (truthy (field ps "adtcore:object")); [reflexivity |].
  destruct (truthy (field ps "program:abapProgram")); [reflexivity |].
  now destruct (truthy (field ps "table:abapTable")).
Qed.

Lemma Get_opt_object (ps : list (string * value)) (key : string) :
  Get_opt (VObject ps) key = field ps key.
Proof. reflexivity. Qed.

(** X16. For a response whose root is a mapping with the attribute
    [adtcore:name], the path is the package name, then [ > ], then the
    object name; the package name is read from the attributes of
    [adtcore:packageRef], and is [TMP] when the root has no package
    reference. *)
Theorem handleGetObjectPath_regular
        (ps rs attrs : list (string * value)) (n : string) :
  first_truthy_root ps = VObject rs ->
  field rs "_attributes" = VObject attrs ->
  field attrs "adtcore:name" = VString n ->
  (forall prs pas p,
      field rs "adtcore:packageRef" = VObject prs ->
      field prs "_attributes" = VObject pas ->
      field pas "adtcore:name" = VString p -> p <> "" ->
      handleGetObjectPath (VObject ps)
      = Ok (VObject [("path", VString (p ++ " > " ++ n))])) /\
  (own rs "adtcore:packageRef" = None ->
   handleGetObjectPath (VObject ps)
   = Ok (VObject [("path", VString ("TMP > " ++ n))])).
Proof.
  intros Hroot Hattrs Hname.
  assert (Hhead : forall package,
             Get_opt (Get_opt (Get_opt (VObject rs) "adtcore:packageRef") "_attributes")
                     "adtcore:name" = package ->
             forall shown, ToString (or_else package (VString "TMP")) = Ok shown ->
             handleGetObjectPath (VObject ps)
             = Ok (VObject [("path", VString (shown ++ " > " ++ n))])).
  { intros package Hp shown Hs. unfold handleGetObjectPath.
    rewrite root_of_object, Hroot. cbn [bind].
    rewrite Hp, Hs. cbn [bind].
    rewrite (Get_opt_object rs "_attributes"), Hattrs.
    unfold or_else. cbn [truthy]. rewrite Get_object, Hname. reflexivity. }
  split.
  - intros prs pas p Hprs Hpas Hp Hne.
    apply (Hhead (VString p)).
    + now rewrite !Get_opt_object, Hprs, Get_opt_object, Hpas, Get_opt_object.
    + unfold or_else. destruct p; [contradiction | reflexivity].
  - intros Hnone. change ("TMP > " ++ n) with ("TMP" ++ " > " ++ n).
    apply (Hhead VUndefined); [| reflexivity].
    rewrite Get_opt_object. unfold field. now rewrite Hnone.
Qed.

(** A table without package reference, a class with one. *)
Lemma handleGetObjectPath_regular_witness :
  handleGetObjectPath
    (VObject [("table:abapTable",
               VObject [("_attributes", VObject [("adtcore:name", VString "ZTAB")])])])
  = Ok (VObject [("path", VString "TMP > ZTAB")]).
Proof.
  refine (proj2 (handleGetObjectPath_regular
                   [("table:abapTable",
                     VObject [("_attributes", VObject [("adtcore:name", VString "ZTAB")])])]
                   [("_attributes", VObject [("adtcore:name", VString "ZTAB")])]
                   [("adtcore:name", VString "ZTAB")] "ZTAB" _ _ _) _);
    reflexivity.
Defined.

(** X17. Without a response body, [null] or [undefined], the path handler of
    the REST handler raises, having no [try] of its own; when the request
    handler gets that failure from the object handler, the caller is given
    the generic internal error, without the message. *)
Theorem handleGetObjectPath_no_data (data : value) :
  data = VNull \/ data = VUndefined ->
  exists e,
    handleGetObjectPath data = Throw e /\
    forall (h : Handlers) (now : string) (arguments : value),
      objectHandler h "getObjectFullPath" arguments = raise (handleGetObjectPath data) ->
      callTool h now "getObjectFullPath" arguments
      = Normal (error_result internal_error_text).
Proof.
  intros [-> | ->]; eexists; (split; [reflexivity |]);
    intros h now arguments Hh; unfold callTool, dispatch;
    cbn [one_of existsb String.eqb Ascii.eqb Bool.eqb orb andb];
    rewrite Hh; reflexivity.
Qed.

(** The body [null]. *)
Lemma handleGetObjectPath_no_data_witness :
  exists e, handleGetObjectPath VNull = Throw e.
Proof.
  destruct (handleGetObjectPath_no_data VNull (or_introl eq_refl)) as [e [He _]].
  now exists e.
Defined.

(** * Properties of the client-library object handler *)

Lemma handleError_McpError (e : McpError) :
  handleError (ThrownMcpError e)
  = Ok (error_result (mcp_error_text (message e) (code e))).
Proof.
  unfold handleError, mcp_error_text. cbn [bind]. now rewrite stringify_error_object.
Qed.

(** The four ways a handler ends. *)
Lemma tracked_cases (prefix : string) (request : tried value)
      (post : value -> Res value) :
  (exists x v, request = Done x /\ post x = Ok v /\
               ObjectHandler__.tracked prefix request post = ([true], Normal v)) \/
  (exists error m, request = Failed error /\ message_of error = Ok m /\
             ObjectHandler__.tracked prefix request post
             = ([false],
                Abrupt (ThrownMcpError
                          (new_McpError ErrorCode.InternalError (prefix ++ m))))) \/
  (exists error e, request = Failed error /\ message_of error = Throw e /\
             ObjectHandler__.tracked prefix request post
             = ([false], Abrupt (ThrownError (exn_message e)))) \/
  (exists x e, request = Done x /\ post x = Throw e /\
               ObjectHandler__.tracked prefix request post
               = ([true; false],
                  Abrupt (ThrownMcpError
                            (new_McpError ErrorCode.InternalError
                                          (prefix ++ exn_message e))))).
Proof.
  unfold ObjectHandler__.tracked.
  destruct request as [x | error].
  - destruct (post x) as [v | e] eqn:E.
    + left. now exists x, v.
    + right. right. right. now exists x, e.
  - destruct (message_of error) as [m | e] eqn:E.
    + right. left. now exists error, m.
    + right. right. left. now exists error, e.
Qed.

Lemma settles_and_then {A : Type} (t : tried value) (k : value -> tried value) :
  settles t -> (forall x, settles (k x)) -> settles (and_then t k).
Proof.
  destruct t as [x | error]; simpl; [intros _ H; apply H | intros H _; exact H].
Qed.

Lemma settles_attempt {A : Type} (r : Res A) (k : A -> tried value) :
  (forall x, settles (k x)) -> settles (and_then (attempt r) k).
Proof.
  destruct r as [x | e]; simpl; [intros H; apply H | intros _; now eexists].
Qed.

(** A known tool goes to one of the six handlers, whose request settles when
    the client does and fails when the login does; an unknown one goes to
    none. *)
Lemma handle_cases (c : ADTClient) (toolName : string) (args : value) :
  (one_of toolName object_tool_names = true /\
   exists prefix request post,
     ObjectHandler__.handle c toolName args
     = ObjectHandler__.tracked prefix request post /\
     (client_settles c -> settles request) /\
     (forall t, login c = Failed t -> request = Failed t)) \/
  (one_of toolName object_tool_names = false /\
   ObjectHandler__.handle c toolName args
   = ([], Abrupt (ThrownMcpError
                    (new_McpError ErrorCode.MethodNotFound
                                  ("Unknown object tool: " ++ toolName))))).
Proof.
  assert (Hlogin : forall (k : value -> tried value) t,
             login c = Failed t -> and_then (login c) k = Failed t)
    by (intros k t ->; reflexivity).
  unfold ObjectHandler__.handle, one_of, object_tool_names. cbn [existsb].
  destruct (String.eqb toolName "getObjects").
  { left. split; [reflexivity |]. do 3 eexists. split; [reflexivity |]. split.
    - intros (Hl & Hs & _). apply (settles_and_then (A := value)); [exact Hl |].
      intros _. now apply settles_attempt.
    - intros t Ht. now apply Hlogin. }
  destruct (String.eqb toolName "getObjectStructure").
  { left. split; [reflexivity |]. do 3 eexists. split; [reflexivity |]. split.
    - intros (Hl & _ & Hs & _). apply (settles_and_then (A := value)); [exact Hl |].
      intros _. now apply settles_attempt.
    - intros t Ht. now apply Hlogin. }
  destruct (String.eqb toolName "getObjectSourceCode").
  { left. split; [reflexivity |]. do 3 eexists. split; [reflexivity |]. split.
    - intros (Hl & _ & _ & Hs & _). apply (settles_and_then (A := value)); [exact Hl |].
      intros _. now apply settles_attempt.
    - intros t Ht. now apply Hlogin. }
  destruct (String.eqb toolName "getObjectFullPath").
  { left. split; [reflexivity |]. do 3 eexists. split; [reflexivity |]. split.
    - intros (Hl & _ & _ & _ & Hs & _). apply (settles_and_then (A := value)); [exact Hl |].
      intros _. now apply settles_attempt.
    - intros t Ht. now apply Hlogin. }
  destruct (String.eqb toolName "getObjectVersionHistory").
  { left. split; [reflexivity |]. do 3 eexists. split; [reflexivity |]. split.
    - intros (Hl & _ & _ & _ & _ & Hs & _).
      apply (settles_and_then (A := value)); [exact Hl |].
      intros _. now apply settles_attempt.
    - intros t Ht. now apply Hlogin. }
  destruct (String.eqb toolName "getPackageObjects").
  { left. split; [reflexivity |]. do 3 eexists. split; [reflexivity |]. split.
    - intros (Hl & _ & _ & _ & _ & _ & Hs).
      apply (settles_and_then (A := value)); [exact Hl |].
      intros _. apply settles_attempt. intros n. apply Hs.
    - intros t Ht. now apply Hlogin. }
  right. split; reflexivity.
Qed.

(** X18. When every rejection of the client has a message that can be read,
    as that of any [Error], a call of the object handler that fails throws an
    [McpError], so that [handleError] shows its message and code and not the
    generic text: [MethodNotFound] for a tool name it does not know,
    [InternalError] for its six tools, whether the client rejected, the
    arguments were unusable or the formatting of the answer raised. When the
    login is rejected with [null], the [catch] clause raises while it reads
    the message, and that error leaves the handler in place of an
    [McpError]. *)
Theorem ObjectHandler_throws_McpError
        (c : ADTClient) (toolName : string) (args : value) :
  (client_settles c ->
   forall (trace : list bool) (t : thrown),
     ObjectHandler__.handle c toolName args = (trace, Abrupt t) ->
     exists e,
       t = ThrownMcpError e /\
       handleError t = Ok (error_result (mcp_error_text (message e) (code e))) /\
       ((one_of toolName object_tool_names = false /\
         e = new_McpError ErrorCode.MethodNotFound
                          ("Unknown object tool: " ++ toolName)) \/
        (one_of toolName object_tool_names = true /\
         exists m, e = new_McpError ErrorCode.InternalError m))) /\
  (one_of toolName object_tool_names = true ->
   ObjectHandler__.handle (locked_client (ThrownValue VNull)) toolName args
   = ([false],
      Abrupt (ThrownError "Cannot read properties of null (reading 'message')"))).
Proof.
  split.
  - intros Hc trace t H.
    destruct (handle_cases c toolName args)
      as [[Hk [p [rq [post [Hh [Hs _]]]]]] | [Hk Hh]]; rewrite Hh in H.
    + specialize (Hs Hc).
      destruct (tracked_cases p rq post)
        as [[x [v [_ [_ Ht]]]]
           | [[error [m [_ [_ Ht]]]]
             | [[error [e [Hrq [He _]]]] | [x [e [_ [_ Ht]]]]]]].
      * rewrite Ht in H. discriminate.
      * rewrite Ht in H. injection H as _ <-. eexists. split; [reflexivity |].
        split; [apply handleError_McpError |]. right. split; [exact Hk |].
        eexists. reflexivity.
      * rewrite Hrq in Hs. simpl in Hs. destruct Hs as [m Hm].
        rewrite Hm in He. discriminate.
      * rewrite Ht in H. injection H as _ <-. eexists. split; [reflexivity |].
        split; [apply handleError_McpError |]. right. split; [exact Hk |].
        eexists. reflexivity.
    + injection H as _ <-. eexists. split; [reflexivity |].
      split; [apply handleError_McpError |]. left. now split.
  - intros Hk.
    destruct (handle_cases (locked_client (ThrownValue VNull)) toolName args)
      as [[_ [p [rq [post [Hh [_ Hl]]]]]] | [Hu _]];
      [| rewrite Hu in Hk; discriminate].
    rewrite Hh, (Hl (ThrownValue VNull) eq_refl). reflexivity.
Qed.

Lemma constant_client_settles (answer : value) : client_settles (constant_client answer).
Proof.
  repeat split; intros; exact I.
Qed.

(** A search without arguments, on a client that answers. *)
Lemma ObjectHandler_throws_McpError_witness :
  (exists e,
      ThrownMcpError
        (new_McpError ErrorCode.InternalError
           "Search failed: Cannot read properties of undefined (reading 'query')")
      = ThrownMcpError e) /\
  ObjectHandler__.handle (locked_client (ThrownValue VNull)) "getObjects" VUndefined
  = ([false],
     Abrupt (ThrownError "Cannot read properties of null (reading 'message')")).
Proof.
  split.
  - destruct (proj1 (ObjectHandler_throws_McpError
                       (constant_client (VArray [])) "getObjects" VUndefined)
                    (constant_client_settles (VArray [])) [false]
                    (ThrownMcpError
                       (new_McpError ErrorCode.InternalError
                          "Search failed: Cannot read properties of undefined (reading 'query')"))
                    eq_refl) as [e [He _]].
    now exists e.
  - exact (proj2 (ObjectHandler_throws_McpError
                    (constant_client (VArray [])) "getObjects" VUndefined) eq_refl).
Defined.

Lemma mapM_In_Throw {A B : Type} (f : A -> Res B) (l : list A) (x : A) (e : exn) :
  In x l -> f x = Throw e -> exists e', mapM f l = Throw e'.
Proof.
  induction l as [| y l IH]; simpl; [contradiction |].
  intros [-> | Hin] Hx.
  - rewrite Hx. now exists e.
  - destruct (f y) as [b |] eqn:Ey; simpl; [| now eexists].
    destruct (IH Hin Hx) as [e' ->]. now exists e'.
Qed.

Lemma string_of_uint_zero (d : Decimal.uint) :
  NilZero.string_of_uint d = "0" -> Nat.of_uint d = 0.
Proof.
  destruct d as [| d | d | d | d | d | d | d | d | d | d]; simpl;
    try discriminate; try reflexivity.
  intros [= H]. destruct d; try discriminate. reflexivity.
Qed.

Lemma nat_to_string_zero (n : nat) : nat_to_string n = "0" -> n = 0.
Proof.
  unfold nat_to_string. intros H. apply string_of_uint_zero in H.
  now rewrite DecimalNat.Unsigned.of_to in H.
Qed.

Lemma length_not_zero (l : list value) :
  l <> [] -> is_zero (VNumber (Finite (nat_to_string (List.length l)))) = false.
Proof.
  intros H. simpl. destruct (String.eqb _ "0") eqn:E; [| reflexivity].
  apply String.eqb_eq, nat_to_string_zero in E.
  destruct l; [contradiction | discriminate].
Qed.

(** What a client that rejects its calls makes of each request. *)
Lemma rejecting_request {A : Type} (r : Res A) (t : thrown) (prefix : string)
      (post : value -> Res value) :
  fst (ObjectHandler__.tracked prefix
         (and_then (Done VUndefined) (fun _ => and_then (attempt r) (fun _ => Failed t)))
         post)
  = [false].
Proof.
  destruct r as [x | e]; reflexivity.
Qed.

(** X19. A call of one of the six tools gives [trackRequest] the outcome
    [true] alone exactly when it returns, and otherwise [false] alone or
    [true] and then [false]. A request that fails, by a rejected login or a
    rejected call of the client, is tracked as [false] alone; an answer of
    the client whose formatting raises, as for a version history that holds a
    [null] entry, is tracked twice, as [true] and then [false]. *)
Theorem ObjectHandler_tracking (c : ADTClient) (toolName : string) (args : value) :
  one_of toolName object_tool_names = true ->
  (forall trace r,
      ObjectHandler__.handle c toolName args = (trace, r) ->
      ((exists v, r = Normal v) <-> trace = [true]) /\
      (trace = [true] \/ trace = [false] \/ trace = [true; false])) /\
  (forall t, login c = Failed t ->
             fst (ObjectHandler__.handle c toolName args) = [false]) /\
  (forall t, fst (ObjectHandler__.handle (rejecting_client t) toolName args) = [false]) /\
  (forall l, In VNull l ->
             fst (ObjectHandler__.handle (constant_client (VArray l))
                                         "getObjectVersionHistory" (VObject []))
             = [true; false]).
Proof.
  intros Hk. split; [| split; [| split]].
  - intros trace r H.
    destruct (handle_cases c toolName args) as [[_ [p [rq [post [Hh _]]]]] | [Hu _]];
      [| rewrite Hu in Hk; discriminate].
    rewrite Hh in H.
    destruct (tracked_cases p rq post)
      as [[x [v [_ [_ Ht]]]]
         | [[error [m [_ [_ Ht]]]]
           | [[error [e [_ [_ Ht]]]] | [x [e [_ [_ Ht]]]]]]];
      rewrite Ht in H; injection H as <- <-.
    + split; [| now left]. split; [reflexivity | intros _; now eexists].
    + split; [| right; now left].
      split; [intros [v Hv]; discriminate | discriminate].
    + split; [| right; now left].
      split; [intros [v Hv]; discriminate | discriminate].
    + split; [| right; now right].
      split; [intros [v Hv]; discriminate | discriminate].
  - intros t Ht.
    destruct (handle_cases c toolName args) as [[_ [p [rq [post [Hh [_ Hl]]]]]] | [Hu _]];
      [| rewrite Hu in Hk; discriminate].
    rewrite Hh, (Hl t Ht). unfold ObjectHandler__.tracked. reflexivity.
  - intros t. revert Hk.
    unfold ObjectHandler__.handle, one_of, object_tool_names. cbn [existsb].
    destruct (String.eqb toolName "getObjects"); [intros _; apply rejecting_request |].
    destruct (String.eqb toolName "getObjectStructure");
      [intros _; apply rejecting_request |].
    destruct (String.eqb toolName "getObjectSourceCode");
      [intros _; apply rejecting_request |].
    destruct (String.eqb toolName "getObjectFullPath");
      [intros _; apply rejecting_request |].
    destruct (String.eqb toolName "getObjectVersionHistory");
      [intros _; apply rejecting_request |].
    destruct (String.eqb toolName "getPackageObjects");
      [intros _; apply rejecting_request |].
    discriminate.
  - intros l Hin.
    assert (Hne : l <> []) by (intros ->; contradiction).
    destruct (mapM_In_Throw ObjectHandler__.revision_entry l VNull
                            (cannot_read "null" "version") Hin eq_refl) as [e He].
    unfold ObjectHandler__.handle, ObjectHandler__.handleObjectVersionHistory.
    cbn [String.eqb Ascii.eqb Bool.eqb andb constant_client login revisions
         ObjectHandler__.tracked and_then attempt Get own].
    unfold ObjectHandler__.revisions_post.
    cbn [truthy negb Get String.eqb Ascii.eqb Bool.eqb bind].
    rewrite (length_not_zero l Hne), He. reflexivity.
Qed.

(** A search whose call the client rejects. *)
Lemma ObjectHandler_tracking_witness :
  fst (ObjectHandler__.handle (rejecting_client (ThrownError "timeout")) "getObjects"
                              (VObject [("query", VString "Z*")]))
  = [false].
Proof.
  exact (proj1 (proj2 (proj2
           (ObjectHandler_tracking (constant_client (VArray [])) "getObjects"
                                   (VObject [("query", VString "Z*")]) eq_refl)))
           (ThrownError "timeout")).
Defined.

Lemma bind_Ok {A B : Type} (r : Res A) (k : A -> Res B) (b : B) :
  bind r k = Ok b -> exists a, r = Ok a /\ k a = Ok b.
Proof.
  destruct r as [a | e]; simpl; [| discriminate]. intros H. now exists a.
Qed.

(** Takes the bindings of a successful computation apart. *)
Ltac unbind H :=
  repeat (let a := fresh "a" in
          let Ha := fresh "Ha" in
          apply bind_Ok in H; destruct H as [a [Ha H]]).

Lemma append_not_empty_r (a b : string) : b <> "" -> a ++ b <> "".
Proof.
  destruct a; simpl; [trivial | discriminate].
Qed.

Lemma join_not_empty (sep : string) (lines : list string) :
  match lines with
  | [] => False
  | y :: _ => y <> ""
  end ->
  JsString.join sep lines <> "".
Proof.
  destruct lines as [| y ys]; [contradiction |]. intros Hy.
  destruct ys; simpl; [exact Hy |].
  destruct y; [contradiction | discriminate].
Qed.

Lemma mapM_head {A B : Type} (f : A -> Res B) (P : B -> Prop) (l : list A)
      (ys : list B) :
  (forall x y, f x = Ok y -> P y) -> l <> [] -> mapM f l = Ok ys ->
  match ys with
  | [] => False
  | y :: _ => P y
  end.
Proof.
  intros Hf Hl Hm. destruct l as [| x l]; [contradiction |].
  simpl in Hm. unbind Hm. injection Hm as <-. exact (Hf _ _ Ha).
Qed.

Lemma handleGetObjects_item_not_empty (item : value) (line : string) :
  handleGetObjects_item item = Ok line -> line <> "".
Proof.
  unfold handleGetObjects_item. intros H. unbind H. injection H as H. subst line. discriminate.
Qed.

Lemma path_segment_not_empty (p : value) (segment : string) :
  ObjectHandler__.path_segment p = Ok segment -> segment <> "".
Proof.
  unfold ObjectHandler__.path_segment. intros H. unbind H. injection H as H.
  subst segment. apply append_not_empty_r. discriminate.
Qed.

Lemma revision_entry_not_empty (rev : value) (entry : string) :
  ObjectHandler__.revision_entry rev = Ok entry -> entry <> "".
Proof.
  unfold ObjectHandler__.revision_entry. intros H. unbind H. injection H as H.
  subst entry. discriminate.
Qed.

Lemma package_line_not_empty (node : value) (line : string) :
  ObjectHandler__.package_line node = Ok line -> line <> "".
Proof.
  unfold ObjectHandler__.package_line. intros H. unbind H. injection H as <-.
  discriminate.
Qed.

(** The shape the four listings share, from the sequence on. *)
Lemma listing_not_empty (f : value -> Res string) (sep what marker : string)
      (items : value) (v : value) :
  (forall x y, f x = Ok y -> y <> "") -> marker <> "" ->
  (len <- Get items "length" ;;
   if is_zero len then Ok (VString marker)
   else match items with
        | VArray l => lines <- mapM f l ;; Ok (VString (JsString.join sep lines))
        | _ => Throw (TypeError what)
        end) = Ok v ->
  exists t, v = VString t /\ t <> "".
Proof.
  intros Hf Hmarker H. unbind H.
  destruct (is_zero a) eqn:Ez;
    [injection H as H; subst v; eexists; split; [reflexivity | exact Hmarker] |].
  destruct items as [| | b | n | z | s | l | ps]; try discriminate.
  unbind H. injection H as H. subst v. eexists. split; [reflexivity |].
  apply join_not_empty. apply (mapM_head f _ l a0 Hf); [| assumption].
  intros Hl. subst l. simpl in Ha. injection Ha as Ha. subst a. discriminate.
Qed.

Lemma search_post_not_empty (results v : value) :
  ObjectHandler__.search_post results = Ok v -> exists t, v = VString t /\ t <> "".
Proof.
  unfold ObjectHandler__.search_post. destruct (truthy results); cbn [negb].
  - apply listing_not_empty; [exact handleGetObjects_item_not_empty | discriminate].
  - intros H. injection H as H. subst v. eexists. split; [reflexivity | discriminate].
Qed.

Lemma path_post_not_empty (path v : value) :
  ObjectHandler__.path_post path = Ok v -> exists t, v = VString t /\ t <> "".
Proof.
  unfold ObjectHandler__.path_post. destruct (truthy path); cbn [negb].
  - apply listing_not_empty; [exact path_segment_not_empty | discriminate].
  - intros H. injection H as H. subst v. eexists. split; [reflexivity | discriminate].
Qed.

Lemma revisions_post_not_empty (revisions v : value) :
  ObjectHandler__.revisions_post revisions = Ok v -> exists t, v = VString t /\ t <> "".
Proof.
  unfold ObjectHandler__.revisions_post. destruct (truthy revisions); cbn [negb].
  - apply listing_not_empty; [exact revision_entry_not_empty | discriminate].
  - intros H. injection H as H. subst v. eexists. split; [reflexivity | discriminate].
Qed.

Lemma package_post_not_empty (nodeContents v : value) :
  ObjectHandler__.package_post nodeContents = Ok v -> exists t, v = VString t /\ t <> "".
Proof.
  unfold ObjectHandler__.package_post. destruct (truthy nodeContents); cbn [negb].
  - intros H. apply bind_Ok in H. destruct H as [nodes [_ H]]. revert H.
    apply listing_not_empty; [exact package_line_not_empty | discriminate].
  - intros H. injection H as H. subst v. eexists. split; [reflexivity | discriminate].
Qed.

Lemma tracked_Normal (prefix : string) (request : tried value)
      (post : value -> Res value) (trace : list bool) (v : value) :
  ObjectHandler__.tracked prefix request post = (trace, Normal v) ->
  exists x, request = Done x /\ post x = Ok v.
Proof.
  unfold ObjectHandler__.tracked.
  destruct request as [x | error]; [| destruct (message_of error); discriminate].
  destruct (post x) as [v' | e] eqn:E; [| discriminate].
  intros H. injection H as _ H. subst v'. now exists x.
Qed.

(** X20. The four listing tools, search, path, version history and package
    content, never return a blank answer: what they return is a text, and it
    is not empty, an empty or missing answer of the client being replaced by
    a sentence that says so. *)
Theorem ObjectHandler_listing_not_blank
        (c : ADTClient) (toolName : string) (args : value)
        (trace : list bool) (v : value) :
  one_of toolName listing_tool_names = true ->
  ObjectHandler__.handle c toolName args = (trace, Normal v) ->
  exists t, v = VString t /\ t <> "".
Proof.
  intros Hk. unfold ObjectHandler__.handle.
  destruct (String.eqb toolName "getObjects") eqn:E1.
  { intros H. apply tracked_Normal in H. destruct H as [x [_ H]].
    exact (search_post_not_empty _ _ H). }
  destruct (String.eqb toolName "getObjectStructure") eqn:E2.
  { apply String.eqb_eq in E2. subst toolName. discriminate Hk. }
  destruct (String.eqb toolName "getObjectSourceCode") eqn:E3.
  { apply String.eqb_eq in E3. subst toolName. discriminate Hk. }
  destruct (String.eqb toolName "getObjectFullPath") eqn:E4.
  { intros H. apply tracked_Normal in H. destruct H as [x [_ H]].
    exact (path_post_not_empty _ _ H). }
  destruct (String.eqb toolName "getObjectVersionHistory") eqn:E5.
  { intros H. apply tracked_Normal in H. destruct H as [x [_ H]].
    exact (revisions_post_not_empty _ _ H). }
  destruct (String.eqb toolName "getPackageObjects") eqn:E6.
  { intros H. apply tracked_Normal in H. destruct H as [x [_ H]].
    exact (package_post_not_empty _ _ H). }
  discriminate.
Qed.

(** A package without nodes. *)
Lemma ObjectHandler_listing_not_blank_witness :
  exists t, VString "Package is empty." = VString t /\ t <> "".
Proof.
  apply (ObjectHandler_listing_not_blank
           (constant_client (VObject [("nodes", VArray [])])) "getPackageObjects"
           (VObject [("package_name", VString "ZPKG")]) [true]
           (VString "Package is empty.")); reflexivity.
Defined.

(** * The fields the list rendering reads *)

Lemma render_item_same_fields (a b : value) :
  same_rendered_fields a b -> render_item a = render_item b.
Proof.
  intros H. unfold render_item.
  now rewrite !(H _) by (unfold rendered_fields; simpl; tauto).
Qed.

Lemma mapM_Forall2_ext {A B : Type} (f : A -> Res B) (l l' : list A) :
  Forall2 (fun a b => f a = f b) l l' -> mapM f l = mapM f l'.
Proof.
  induction 1 as [| a b l l' Hab _ IH]; simpl; [reflexivity |].
  now rewrite Hab, IH.
Qed.

(** X21. The rendering of a sequence reads five fields of each entry, [name],
    [ObjectName], [type], [ObjectType] and [description], and nothing else:
    two sequences of the same length whose first 50 cleaned entries agree on
    these fields give the same result, so that a [uri] or any other field of
    an entry never shows. *)
Theorem serializeResult_rendered_fields (l l' : list value) :
  List.length l = List.length l' ->
  Forall2 same_rendered_fields (shown l) (shown l') ->
  serializeResult (VArray l) = serializeResult (VArray l').
Proof.
  intros Hlen Hsame.
  assert (Hm : mapM render_item (shown l) = mapM render_item (shown l')).
  { apply mapM_Forall2_ext. revert Hsame. apply Forall2_impl.
    exact render_item_same_fields. }
  unfold shown in Hm. rewrite !mapM_map in Hm.
  rewrite !serializeResult_array. unfold present, render_clean, render_list.
  pose proof (walk_elems_length clean_at l 0) as Hl.
  pose proof (walk_elems_length clean_at l' 0) as Hl'.
  destruct (JSON.walk_elems clean_at 0 l) as [| j c];
    destruct (JSON.walk_elems clean_at 0 l') as [| j' c'];
    [reflexivity | simpl in Hl, Hl'; lia | simpl in Hl, Hl'; lia |].
  rewrite Hm. now rewrite Hl, Hl', Hlen.
Qed.

(** A hit with its URI and the same hit without. *)
Lemma serializeResult_rendered_fields_witness :
  serializeResult
    (VArray [VObject [("name", VString "ZCL_FOO"); ("type", VString "CLAS/OC");
                      ("uri", VString "/sap/bc/adt/oo/classes/zcl_foo")]])
  = serializeResult
      (VArray [VObject [("name", VString "ZCL_FOO"); ("type", VString "CLAS/OC")]]).
Proof.
  apply serializeResult_rendered_fields; [reflexivity |].
  constructor; [| constructor].
  intros k Hk. unfold rendered_fields in Hk. simpl in Hk.
  repeat (destruct Hk as [<- | Hk]; [reflexivity |]). contradiction.
Defined.
